(** * Delta-Prox: the diffractive-optics model (dprox/contrib/optic/doe_model.py)

    A shallow embedding of [HeightMap], [RGBCollimator] and
    [build_baseline_profile], and the properties of the phase / height
    conversion, the aperture mask and the PSF normalisation.

    Numbers.  torch tensors of floats are modelled as nested lists over the
    real numbers [R]: every statement below is about exact real arithmetic,
    rounding is not modelled.  Where torch would produce NaN or inf (a
    division by zero, the square root of a negative number) the total
    operations of [R] give some real instead; the places are marked.

    Shapes.  A tensor of shape (N,C,H,W) is a list of N lists of C grids,
    a grid being a list of H rows of W entries. *)

From Stdlib Require Import Reals Lra.
From stdpp Require Import base option list gmap.

Local Open Scope R_scope.

(** ** Python exceptions *)

Inductive py_error : Type :=
  | IndexError
  | UnboundLocalError
  | AttributeError
  | RuntimeError.

Inductive result (A : Type) : Type :=
  | Ok (a : A)
  | Raise (e : py_error).
Arguments Ok {A} a.
Arguments Raise {A} e.

Definition rbind {A B} (m : result A) (k : A → result B) : result B :=
  match m with
  | Ok a => k a
  | Raise e => Raise e
  end.

Notation "'let*' x ':=' m 'in' k" := (rbind m (λ x, k))
  (at level 10, x name, m at level 100, k at level 200, only parsing).

(** [xs[i]] for a non-negative index: IndexError out of range. *)
Definition getitem {A} (xs : list A) (i : nat) : result A :=
  match xs !! i with
  | Some x => Ok x
  | None => Raise IndexError
  end.

(** Reading an attribute that [__init__] may not have set. *)
Definition getattr {A} (field : option A) : result A :=
  match field with
  | Some a => Ok a
  | None => Raise AttributeError
  end.

(** Reading a local variable that may not have been bound. *)
Definition read_local {A} (v : option A) : result A :=
  match v with
  | Some a => Ok a
  | None => Raise UnboundLocalError
  end.

Fixpoint mapM_result {A B} (f : A → result B) (xs : list A) : result (list B) :=
  match xs with
  | [] => Ok []
  | x :: xs' => let* y := f x in let* ys := mapM_result f xs' in Ok (y :: ys)
  end.

(** Subscripting None raises TypeError, which [py_error] does not list. *)
Inductive py_exception : Type :=
  | Listed (e : py_error)
  | TypeError.

Definition lift_result {A} (m : result A) : py_exception + A :=
  match m with
  | Ok a => inr a
  | Raise e => inl (Listed e)
  end.

(** ** Tensors *)

Definition grid (A : Type) : Type := list (list A).
Definition tensor (A : Type) : Type := list (list (grid A)).

(** [g[None][None]]: (H,W) to (1,1,H,W). *)
Definition unsqueeze2 {A} (g : grid A) : tensor A := [[g]].

Definition gmap2d {A B} (f : A → B) (g : grid A) : grid B := map (map f) g.
Definition tmap {A B} (f : A → B) (t : tensor A) : tensor B :=
  map (map (gmap2d f)) t.

(** One dimension of torch's broadcasting: a dimension of size 1 is
    stretched to the size of the other operand.  torch raises RuntimeError
    on any other size mismatch, where the model pairs the entries up to
    the shorter length: the statements below that assert a returned value
    carry the hypotheses under which no such mismatch occurs (coordinate
    grids of one shape, as many refractive indices as wavelengths), or are
    conditional on the value returned. *)
Definition bcast2 {A B C} (f : A → B → C) (xs : list A) (ys : list B) : list C :=
  match xs, ys with
  | [x], _ => map (f x) ys
  | _, [y] => map (λ x, f x y) xs
  | _, _ => zip_with f xs ys
  end.

Definition gzip {A B C} (f : A → B → C) : grid A → grid B → grid C :=
  bcast2 (bcast2 f).
Definition tzip {A B C} (f : A → B → C) : tensor A → tensor B → tensor C :=
  bcast2 (bcast2 (gzip f)).

Definition tmul : tensor R → tensor R → tensor R := tzip Rmult.

(** [t.view(-1)] *)
Definition gflatten {A} (g : grid A) : list A := concat g.
Definition tflatten {A} (t : tensor A) : list A :=
  concat (map gflatten (concat t)).

(** [t.sum()] *)
Definition lsum (xs : list R) : R := foldr Rplus 0 xs.
Definition gsum (g : grid R) : R := lsum (map lsum g).
Definition tsum (t : tensor R) : R := lsum (map (λ cs, lsum (map gsum cs)) t).

(** [t.max()]: RuntimeError on a tensor without entries. *)
Definition lmax (xs : list R) : result R :=
  match xs with
  | [] => Raise RuntimeError
  | x :: xs' => Ok (foldr Rmax x xs')
  end.

(** Python's [a % b] on floats, for [b > 0]: the remainder has the sign of
    the divisor, [a - b * floor (a / b)]. *)
Definition Rfloor (x : R) : Z := Int_part x.
Definition Rmod (a b : R) : R := a - b * IZR (Rfloor (a / b)).

(** Complex numbers, for [torch.exp(1j * phi)] and [torch.abs]. *)
Record complex : Type := Cx { re : R; im : R }.

Definition cexp_i (phi : R) : complex := Cx (cos phi) (sin phi).
Definition cscale (z : complex) (a : R) : complex := Cx (re z * a) (im z * a).
Definition rscale (a : R) (z : complex) : complex := Cx (a * re z) (a * im z).
Definition cabs (z : complex) : R := sqrt (re z * re z + im z * im z).

(** ** class HeightMap *)

Module HeightMap.

Record t : Type := Build {
  zernike_volume : option (list (grid R));        (* (K,H,W) or None *)
  initial_zernike_coefs : option (gmap nat R);    (* dict or None *)
  wave_lengths : list R;
  refractive_idcs : list R;
  delta_N : tensor R;                             (* buffer, (1,C,1,1) *)
  wave_nos : tensor R;                            (* buffer, (1,C,1,1) *)
  xx : grid R;
  yy : grid R;
  sensor_distance : R;
  height_map_sqrt : option (tensor R);            (* nn.Parameter, free-form *)
  zernike_coeffs : option (list R);               (* nn.ParameterList, Zernike *)
}.

(** [phase_to_height_map(self, phi, wave_length_idx)] *)
Definition phase_to_height_map (self : t) (phi : tensor R) (wave_length_idx : nat)
  : result (tensor R) :=
  let* wave_length := getitem (wave_lengths self) wave_length_idx in
  let* delta_n := getitem (tflatten (delta_N self)) wave_length_idx in
  let k := 2 * PI / wave_length in
  let phi := tmap (λ p, Rmod p (2 * PI)) phi in
  let height_map := tmap (λ p, p / k / delta_n) phi in
  Ok height_map.

(** [_fresnel_phase_init(self, idx)]; [** 0.5] is [sqrt] (NaN in torch on
    a negative height, which needs a refractive index below 1), and the
    division by [2 * sensor_distance] is total (inf or NaN in torch at a
    zero distance): the statements about the stored values assume a
    non-zero distance, a positive wavelength and a refractive index
    above 1. *)
Definition _fresnel_phase_init (self : t) (idx : nat) : result (tensor R) :=
  let* wl := getitem (wave_lengths self) idx in
  let k := 2 * PI / wl in
  let r2 := gzip Rplus (gmap2d (λ x, x ^ 2) (xx self)) (gmap2d (λ y, y ^ 2) (yy self)) in
  let fresnel_phase :=
    tmap (λ q, - k * q)
         (tmap (λ v, v / (2 * sensor_distance self)) (unsqueeze2 r2)) in
  let fresnel_phase := tmap (λ p, Rmod p (PI * 2)) fresnel_phase in
  let* height_map := phase_to_height_map self fresnel_phase idx in
  Ok (tmap sqrt height_map).

(** The Zernike phase: [2π * sum(stack([coef * zv[k] ...]), dim=0,
    keepdim=True).unsqueeze(0)].  [torch.stack] raises on an empty list. *)
Definition gadd : grid R → grid R → grid R := gzip Rplus.

Definition sum_dim0 (gs : list (grid R)) : result (grid R) :=
  match gs with
  | [] => Raise RuntimeError
  | g :: gs' => Ok (foldl gadd g gs')
  end.

Definition zernike_phase (zv : list (grid R)) (coeffs : list R) : result (tensor R) :=
  let* terms :=
    mapM_result
      (λ kc : nat * R, let* b := getitem zv kc.1 in Ok (gmap2d (λ v, kc.2 * v) b))
      (imap (λ k coef, (k, coef)) coeffs) in
  let* s := sum_dim0 terms in
  Ok (tmap (λ v, 2 * PI * v) (unsqueeze2 s)).

(** Line 57, the height field of the free-form branch:
    [torch.square(self.height_map_sqrt)]. *)
Definition free_form_height (self : t) : result (tensor R) :=
  let* p := getattr (height_map_sqrt self) in
  Ok (tmap (λ v, v * v) p).

(** [get_phase_profile(self, height_map=None)].  The local [height_map]
    is rebound on the first line of the free-form branch, whatever the
    caller passed. *)
Definition get_phase_profile (self : t) (height_map : option (tensor R))
  : result (tensor complex) :=
  let* phi :=
    match zernike_volume self with
    | None =>
        let* height_map := free_form_height self in
        Ok (tmul (tmul (wave_nos self) (delta_N self)) height_map)
    | Some zv =>
        let* coeffs := getattr (zernike_coeffs self) in
        zernike_phase zv coeffs
    end in
  Ok (tmap cexp_i phi).

(** [height_from_zernike(self)].  The comprehension reads
    [self.zernike_coeffs] first; a basis left at None is subscripted on the
    first coefficient (TypeError), and with no coefficient at all
    [torch.stack] fails on the empty list. *)
Definition height_from_zernike (self : t) : py_exception + tensor R :=
  match getattr (zernike_coeffs self) with
  | Raise e => inl (Listed e)
  | Ok coeffs =>
      match zernike_volume self, coeffs with
      | None, _ :: _ => inl TypeError
      | None, [] => inl (Listed RuntimeError)
      | Some zv, _ =>
          lift_result
            (let* phi := zernike_phase zv coeffs in
             let* wl0 := getitem (wave_lengths self) 0 in
             let* n0 := getitem (refractive_idcs self) 0 in
             let height_map := tmap (λ p, wl0 * p / (2 * PI * (n0 - 1))) phi in
             Ok height_map)
      end
  end.

(** [HeightMap.__init__].  [delta_N] and [wave_nos] are the (1,C,1,1)
    views; [initial_zernike_coefs.get(k, 0.0)] is the dictionary lookup
    with its default, AttributeError when the dictionary is None. *)
Definition __init__
    (zernike_volume : option (list (grid R)))
    (initial_zernike_coefs : option (gmap nat R))
    (height_map_shape : nat * nat * nat * nat)
    (wave_lengths refractive_idcs : list R)
    (xx yy : grid R) (sensor_distance : R) : result t :=
  let delta_N := [map (λ n, [[n - 1]]) refractive_idcs] in
  let wave_nos := [map (λ l, [[2 * PI / l]]) wave_lengths] in
  let self param coeffs :=
    Build zernike_volume initial_zernike_coefs wave_lengths refractive_idcs
          delta_N wave_nos xx yy sensor_distance param coeffs in
  match zernike_volume with
  | None =>
      let* height_map_sqrt := _fresnel_phase_init (self None None) 1 in
      Ok (self (Some height_map_sqrt) None)
  | Some zv =>
      let num_zernike_coeffs := length zv in
      let* coeffs :=
        mapM_result
          (λ k, let* d := getattr initial_zernike_coefs in
                Ok (default 0 (d !! k)))
          (seq 0 num_zernike_coeffs) in
      Ok (self None (Some coeffs))
  end.

End HeightMap.

(** ** class RGBCollimator *)

Module RGBCollimator.

Record t : Type := Build {
  zernike_volume : option (list (grid R));
  initial_zernike_coefs : option (gmap nat R);
  wave_res : nat * nat;
  wave_lengths : list R;
  sensor_distance : R;
  sample_interval : R;
  patch_size : nat;
  refractive_idcs : list R;
  input_field : tensor R;
  xx : grid R;
  yy : grid R;
  aperture : tensor R;
  height_map : HeightMap.t;
  propagator : tensor complex → tensor complex;
}.

(** [_get_circular_aperture(self, xx, yy)]: the bound is [xx.max()]. *)
Definition _get_circular_aperture (xx yy : grid R) : result (tensor R) :=
  let* max_val := lmax (gflatten xx) in
  let r := gmap2d sqrt (gzip Rplus (gmap2d (λ x, x ^ 2) xx) (gmap2d (λ y, y ^ 2) yy)) in
  let aperture := unsqueeze2 (gmap2d (λ v, if Rlt_dec v max_val then 1 else 0) r) in
  Ok aperture.

Section common.
(** [get_coordinate], [FresnelPropagator] and [area_downsampling] come
    from [.common], which is not part of the sources at hand: they are
    parameters of the model. *)
Variable get_coordinate : nat → nat → R → R → grid R * grid R.
Variable FresnelPropagator :
  nat * nat * nat * nat → R → R → list R → tensor complex → tensor complex.
Variable area_downsampling : tensor R → nat → tensor R.

(** [__init__] with [_init_setup], [_get_height_map], [_get_propagator]. *)
Definition __init__
    (zernike_volume : option (list (grid R)))
    (initial_zernike_coefs : option (gmap nat R))
    (sensor_distance : R) (refractive_idcs wave_lengths : list R)
    (patch_size : nat) (sample_interval : R) (wave_resolution : nat * nat)
  : result t :=
  let input_field :=
    [replicate (length wave_lengths)
       (replicate wave_resolution.1 (replicate wave_resolution.2 1))] in
  let '(xx, yy) :=
    get_coordinate wave_resolution.1 wave_resolution.2
                   sample_interval sample_interval in
  let* aperture := _get_circular_aperture xx yy in
  let shape := (1, 3, wave_resolution.1, wave_resolution.2)%nat in
  let* height_map :=
    HeightMap.__init__ zernike_volume initial_zernike_coefs shape
                       wave_lengths refractive_idcs xx yy sensor_distance in
  let propagator :=
    FresnelPropagator shape sensor_distance sample_interval wave_lengths in
  Ok (Build zernike_volume initial_zernike_coefs wave_resolution wave_lengths
            sensor_distance sample_interval patch_size refractive_idcs
            input_field xx yy aperture height_map propagator).

(** The intensity before normalisation: lines 121-127 of [get_psf]. *)
Definition psf_intensity (self : t) (phase_profile : option (tensor complex))
  : result (tensor R) :=
  let* phase_profile :=
    match phase_profile with
    | None => HeightMap.get_phase_profile (height_map self) None
    | Some p => Ok p
    end in
  let field := tzip cscale phase_profile (input_field self) in
  let field := tzip rscale (aperture self) field in
  let field := propagator self field in
  let psfs := tmap (λ z, cabs z ^ 2) field in
  Ok (area_downsampling psfs (patch_size self)).

(** [get_psf(self, phase_profile=None)]: [psfs / psfs.sum()].  On a
    zero total torch yields NaN entries; here [0 / 0 = 0]. *)
Definition get_psf (self : t) (phase_profile : option (tensor complex))
  : result (tensor R) :=
  let* psfs := psf_intensity self phase_profile in
  let psfs := tmap (λ v, v / tsum psfs) psfs in
  Ok psfs.

End common.

Section forward_pass.
(** [img_psf_conv] comes from [.common] as well. *)
Variable area_downsampling : tensor R → nat → tensor R.
Variable img_psf_conv : tensor R → tensor R → bool → tensor R.


End forward_pass.

End RGBCollimator.

(** ** build_baseline_profile *)

(** The local variable [height_map] is bound in the free-form branch only;
    the Zernike branch is [pass]. *)
Definition build_baseline_profile (rgb_collim_model : RGBCollimator.t)
  : result (tensor complex) :=
  let* height_map :=
    match RGBCollimator.zernike_volume rgb_collim_model with
    | None =>
        let* wl := getitem (RGBCollimator.wave_lengths rgb_collim_model) 1 in
        let k := 2 * PI / wl in
        let r2 := gzip Rplus
                    (gmap2d (λ x, x ^ 2) (RGBCollimator.xx rgb_collim_model))
                    (gmap2d (λ y, y ^ 2) (RGBCollimator.yy rgb_collim_model)) in
        let fresnel_phase :=
          tmap (λ q, - k * q)
               (tmap (λ v, v / (2 * RGBCollimator.sensor_distance rgb_collim_model))
                     (unsqueeze2 r2)) in
        let fresnel_phase := tmap (λ p, Rmod p (PI * 2)) fresnel_phase in
        let* h := HeightMap.phase_to_height_map
                    (RGBCollimator.height_map rgb_collim_model) fresnel_phase 1 in
        Ok (Some h)
    | Some _ => Ok None
    end in
  let* arg := read_local height_map in
  HeightMap.get_phase_profile (RGBCollimator.height_map rgb_collim_model) (Some arg).

(** ** DOEModelConfig and build_doe_model *)

(** The dataclass; [model_kwargs], a dict that nothing reads, is left out. *)
Record DOEModelConfig : Type := {
  cfg_zernike_volume : option (list (grid R));
  cfg_initial_zernike_coefs : option (gmap nat R);
  cfg_circular : bool;
  cfg_sensor_distance : R;
  cfg_refractive_idcs : list R;
  cfg_wave_lengths : list R;
  cfg_num_steps : Z;
  cfg_patch_size : nat;
  cfg_sample_interval : R;
  cfg_wave_resolution : nat * nat;
}.

(** [DOEModelConfig()] *)
Definition default_config : DOEModelConfig := {|
  cfg_zernike_volume := None;
  cfg_initial_zernike_coefs := None;
  cfg_circular := true;
  cfg_sensor_distance := 15e-3;
  cfg_refractive_idcs := [1.4648; 1.4599; 1.4568];
  cfg_wave_lengths := [460 * 1e-9; 550 * 1e-9; 640 * 1e-9];
  cfg_num_steps := 10001%Z;
  cfg_patch_size := 748;
  cfg_sample_interval := 2e-6;
  cfg_wave_resolution := (1496%nat, 1496%nat);
|}.

Section build.
Variable get_coordinate : nat → nat → R → R → grid R * grid R.
Variable FresnelPropagator :
  nat * nat * nat * nat → R → R → list R → tensor complex → tensor complex.


End build.

(** ** The claims' reference notions and sample instances *)

(** The profile of a given height map, in the words of the contract of
    [get_phase_profile]: exp(i * wave_nos * delta_N * h). *)
Definition phase_profile_of_height (self : HeightMap.t) (h : tensor R) : tensor complex :=
  tmap cexp_i (tmul (tmul (HeightMap.wave_nos self) (HeightMap.delta_N self)) h).

(** Every entry of a tensor satisfies [P]. *)
Definition all_entries {A} (P : A → Prop) (t : tensor A) : Prop :=
  Forall (Forall (Forall (Forall P))) t.

(** The initial free-form parameter in the words of the initialisation
    policy: the ideal Fresnel-lens phase at a sample (x, y) for the
    wavelength [wl], reduced modulo 2π; its height for the refractive index
    [n] (the phase modulo 2π over k·(n - 1), k = 2π/wl); the square root. *)
Definition fresnel_lens_phase (wl d x y : R) : R :=
  Rmod (- (2 * PI / wl) * (x ^ 2 + y ^ 2) / (2 * d)) (2 * PI).
Definition phase_to_height (wl n phase : R) : R :=
  Rmod phase (2 * PI) / (2 * PI / wl) / (n - 1).
Definition fresnel_init_spec (wl n d x y : R) : R :=
  sqrt (phase_to_height wl n (fresnel_lens_phase wl d x y)).

(** One term of the Zernike sum, [coef * self.zernike_volume[k]]. *)
Definition zernike_term (zv : list (grid R)) (kc : nat * R) : result (grid R) :=
  let* b := getitem zv kc.1 in Ok (gmap2d (λ v, kc.2 * v) b).

(** The entry of a tensor at batch [b], channel [c], row [i], column [j]. *)
Definition tentry {A} (t : tensor A) (b c i j : nat) : option A :=
  t !! b ≫= λ cs, cs !! c ≫= λ g, g !! i ≫= λ row, row !! j.

(** The entry of a grid at row [i], column [j]. *)
Definition entry {A} (g : grid A) (i j : nat) : option A :=
  g !! i ≫= λ row, row !! j.

(** Two grids with the same number of rows and the same row lengths. *)
Definition same_shape {A B} (a : grid A) (b : grid B) : Prop :=
  map length a = map length b.

(** [m] is the largest entry of the grid. *)
Definition grid_max (g : grid R) (m : R) : Prop :=
  m ∈ gflatten g ∧ ∀ x, x ∈ gflatten g → x <= m.

(** The aperture mask in the words of the data model: 1 where the radius
    is below the maximum radius of the grid, else 0. *)
Definition radius_grid (xx yy : grid R) : grid R :=
  gzip (λ x y, sqrt (x ^ 2 + y ^ 2)) xx yy.
Definition aperture_by_max_radius (xx yy : grid R) : result (tensor R) :=
  let* max_radius := lmax (gflatten (radius_grid xx yy)) in
  Ok (unsqueeze2 (gmap2d (λ r, if Rlt_dec r max_radius then 1 else 0)
                         (radius_grid xx yy))).

(** A centred 3 x 3 coordinate grid with unit sample interval. *)
Definition xx3 : grid R := [[-1; -1; -1]; [0; 0; 0]; [1; 1; 1]].
Definition yy3 : grid R := [[-1; 0; 1]; [-1; 0; 1]; [-1; 0; 1]].

(** The defaults of [DOEModelConfig]. *)
Definition default_wave_lengths : list R := [460 * 1e-9; 550 * 1e-9; 640 * 1e-9].
Definition default_refractive_idcs : list R := [1.4648; 1.4599; 1.4568].
Definition default_sensor_distance : R := 15e-3.

(** A free-form height map on a single sample whose parameter is zero. *)
Definition hm_flat : HeightMap.t :=
  HeightMap.Build None None default_wave_lengths default_refractive_idcs
    [map (λ n, [[n - 1]]) default_refractive_idcs]
    [map (λ l, [[2 * PI / l]]) default_wave_lengths]
    [[0]] [[0]] default_sensor_distance (Some [[[[0]]]]) None.

(** A height of half a green wave: 550 nm / (2 * (1.4599 - 1)). *)
Definition half_wave_height : tensor R := [[[[550 * 1e-9 / (2 * (1.4599 - 1))]]]].

(** A collimator of wave resolution (1,1) and patch size 1, on the sample
    at the origin: its aperture is the one [_get_circular_aperture] computes
    there, the zero mask.  Propagation over a zero distance and
    downsampling by a pooling factor of 1 leave their input as it is. *)
Definition free_space : tensor complex → tensor complex := λ field, field.
Definition unit_pooling : tensor R → nat → tensor R := λ psfs _, psfs.

Definition origin_coordinate : nat → nat → R → R → grid R * grid R :=
  λ _ _ _ _, ([[0]], [[0]]).
Definition free_space_propagator
  : nat * nat * nat * nat → R → R → list R → tensor complex → tensor complex :=
  λ _ _ _ _, free_space.

Definition dark_model : RGBCollimator.t :=
  RGBCollimator.Build None None (1%nat, 1%nat) default_wave_lengths
    default_sensor_distance 2e-6 1 default_refractive_idcs
    [[ [[1]]; [[1]]; [[1]] ]] [[0]] [[0]] [[[[0]]]] hm_flat free_space.

(** A free-form collimator of wave resolution (2,2) with sample interval
    1 mm, green wavelength 500 nm and the sensor at 2 m, whose parameter
    [height_map_sqrt] has been set to zero. *)
Definition mm_wave_lengths : list R := [460 * 1e-9; 500 * 1e-9; 640 * 1e-9].
Definition mm_xx : grid R := [[-1e-3; -1e-3]; [0; 0]].
Definition mm_yy : grid R := [[-1e-3; 0]; [-1e-3; 0]].

Definition mm_height_map : HeightMap.t :=
  HeightMap.Build None None mm_wave_lengths default_refractive_idcs
    [map (λ n, [[n - 1]]) default_refractive_idcs]
    [map (λ l, [[2 * PI / l]]) mm_wave_lengths]
    mm_xx mm_yy 2 (Some [[ [[0; 0]; [0; 0]] ]]) None.

Definition mm_model : RGBCollimator.t :=
  RGBCollimator.Build None None (2%nat, 2%nat) mm_wave_lengths 2 1e-3 2
    default_refractive_idcs
    [replicate 3 [[1; 1]; [1; 1]]] mm_xx mm_yy [[ [[0; 0]; [0; 0]] ]]
    mm_height_map free_space.

(** A free-form collimator on the centred 3 x 3 grid with a zero parameter:
    the aperture is open at the centre sample only. *)
Definition lit_height_map : HeightMap.t :=
  HeightMap.Build None None default_wave_lengths default_refractive_idcs
    [map (λ n, [[n - 1]]) default_refractive_idcs]
    [map (λ l, [[2 * PI / l]]) default_wave_lengths]
    xx3 yy3 default_sensor_distance
    (Some [[ [[0; 0; 0]; [0; 0; 0]; [0; 0; 0]] ]]) None.

Definition centre_only : grid R := [[0; 0; 0]; [0; 1; 0]; [0; 0; 0]].

Definition lit_model : RGBCollimator.t :=
  RGBCollimator.Build None None (3%nat, 3%nat) default_wave_lengths
    default_sensor_distance 1 3 default_refractive_idcs
    [replicate 3 (replicate 3 (replicate 3 1))] xx3 yy3 [[centre_only]]
    lit_height_map free_space.

(** A free-form height map whose parameter has entries of both signs. *)
Definition signed_height_map : HeightMap.t :=
  HeightMap.Build None None default_wave_lengths default_refractive_idcs
    [map (λ n, [[n - 1]]) default_refractive_idcs]
    [map (λ l, [[2 * PI / l]]) default_wave_lengths]
    [[-1; 0]] [[0; 0]] default_sensor_distance
    (Some [[ [[-2; 0.5]] ]]) None.

(** A height map on a two-slice Zernike basis with the coefficients 0.25
    and 0.5. *)
Definition two_term_height_map : HeightMap.t :=
  HeightMap.Build (Some [ [[1; 2]]; [[3; 4]] ]) (Some (<[0%nat := 0.25]> (<[1%nat := 0.5]> (∅ : gmap nat R))))
    default_wave_lengths default_refractive_idcs
    [map (λ n, [[n - 1]]) default_refractive_idcs]
    [map (λ l, [[2 * PI / l]]) default_wave_lengths]
    [[-1; 0]] [[0; 0]] default_sensor_distance None (Some [0.25; 0.5]).

(** A collimator with a one-slice Zernike basis. *)
Definition zernike_height_map : HeightMap.t :=
  HeightMap.Build (Some [[[1]]]) (Some ∅) default_wave_lengths default_refractive_idcs
    [map (λ n, [[n - 1]]) default_refractive_idcs]
    [map (λ l, [[2 * PI / l]]) default_wave_lengths]
    [[0]] [[0]] default_sensor_distance None (Some [0]).

Definition zernike_model : RGBCollimator.t :=
  RGBCollimator.Build (Some [[[1]]]) (Some ∅) (1%nat, 1%nat) default_wave_lengths
    default_sensor_distance 2e-6 1 default_refractive_idcs
    [[ [[1]]; [[1]]; [[1]] ]] [[0]] [[0]] [[[[0]]]] zernike_height_map free_space.

(** * Properties *)

(** ** Lists, grids and tensors *)

Section list_facts.
Context {A B C D : Type}.

Lemma tmap_ext (f g : A → B) (t : tensor A) :
  (∀ a, f a = g a) → tmap f t = tmap g t.
Proof.
  intros Hfg. unfold tmap, gmap2d.
  repeat (apply map_ext; intros ?). apply Hfg.
Qed.

Lemma tmap_tmap (f : A → B) (g : B → C) (t : tensor A) :
  tmap g (tmap f t) = tmap (λ a, g (f a)) t.
Proof.
  unfold tmap, gmap2d. rewrite map_map.
  apply map_ext; intros cs. rewrite map_map.
  apply map_ext; intros gr. rewrite map_map.
  apply map_ext; intros row. apply map_map.
Qed.

Lemma bcast2_ext (f g : A → B → C) (xs : list A) (ys : list B) :
  (∀ a b, f a b = g a b) → bcast2 f xs ys = bcast2 g xs ys.
Proof.
  intros Hfg.
  assert (Hz : ∀ (l : list A) (k : list B), zip_with f l k = zip_with g l k).
  { induction l as [|a l IH]; intros [|b k]; simpl; f_equal; auto. }
  destruct xs as [|x [|x' xs]]; destruct ys as [|y [|y' ys]]; unfold bcast2;
    first [ apply Hz | apply map_ext; intros ?; apply Hfg ].
Qed.

Lemma map_bcast2 (f : A → B → C) (h : C → D) (xs : list A) (ys : list B) :
  map h (bcast2 f xs ys) = bcast2 (λ a b, h (f a b)) xs ys.
Proof.
  assert (Hz : ∀ (l : list A) (k : list B),
             map h (zip_with f l k) = zip_with (λ a b, h (f a b)) l k).
  { induction l as [|a l IH]; intros [|b k]; simpl; f_equal; auto. }
  destruct xs as [|x [|x' xs]]; destruct ys as [|y [|y' ys]]; unfold bcast2;
    first [ apply Hz | apply map_map ].
Qed.

Lemma bcast2_map (f : C → D → B) (h : A → C) (k : A → D) (xs ys : list A) :
  bcast2 f (map h xs) (map k ys) = bcast2 (λ a b, f (h a) (k b)) xs ys.
Proof.
  assert (Hz : ∀ (l m : list A),
             zip_with f (map h l) (map k m) = zip_with (λ a b, f (h a) (k b)) l m).
  { induction l as [|a l IH]; intros [|b m]; simpl; f_equal; auto. }
  destruct xs as [|x [|x' xs]]; destruct ys as [|y [|y' ys]];
    first [ apply Hz | cbn [map bcast2]; rewrite ?map_map; reflexivity ].
Qed.
End list_facts.

Section grid_facts.
Context {A B C D : Type}.

Lemma gzip_ext (f g : A → B → C) (a : grid A) (b : grid B) :
  (∀ x y, f x y = g x y) → gzip f a b = gzip g a b.
Proof.
  intros Hfg. unfold gzip. apply bcast2_ext; intros r r'.
  apply bcast2_ext, Hfg.
Qed.

Lemma gmap2d_gzip (f : A → B → C) (h : C → D) (a : grid A) (b : grid B) :
  gmap2d h (gzip f a b) = gzip (λ x y, h (f x y)) a b.
Proof.
  unfold gmap2d, gzip. rewrite map_bcast2.
  apply bcast2_ext; intros r r'. apply map_bcast2.
Qed.

Lemma gzip_gmap2d (f : C → D → B) (h : A → C) (k : A → D) (a b : grid A) :
  gzip f (gmap2d h a) (gmap2d k b) = gzip (λ x y, f (h x) (k y)) a b.
Proof.
  unfold gmap2d, gzip. rewrite bcast2_map.
  apply bcast2_ext; intros r r'. apply bcast2_map.
Qed.

Lemma tmap_unsqueeze2 (f : A → B) (g : grid A) :
  tmap f (unsqueeze2 g) = unsqueeze2 (gmap2d f g).
Proof. reflexivity. Qed.
End grid_facts.

Lemma all_entries_tmap {A B} (P : B → Prop) (f : A → B) (t : tensor A) :
  (∀ a, P (f a)) → all_entries P (tmap f t).
Proof.
  intros HP. unfold all_entries, tmap, gmap2d.
  repeat (apply Forall_map, Forall_forall; intros ? _). apply HP.
Qed.

(** ** The remainder modulo a full cycle *)

Lemma Rfloor_add_Z (x : R) (n : Z) : Rfloor (x + IZR n) = (Rfloor x + n)%Z.
Proof.
  unfold Rfloor. symmetry. apply Int_part_spec.
  destruct (base_Int_part x) as [Hle Hgt].
  rewrite plus_IZR. split; lra.
Qed.

Lemma Rmod_add_cycles (a b : R) (n : Z) :
  b ≠ 0 → Rmod (a + b * IZR n) b = Rmod a b.
Proof.
  intros Hb. unfold Rmod.
  replace ((a + b * IZR n) / b) with (a / b + IZR n) by (field; exact Hb).
  rewrite Rfloor_add_Z, plus_IZR. ring.
Qed.

Lemma Rmod_range (a b : R) : 0 < b → 0 <= Rmod a b < b.
Proof.
  intros Hb. unfold Rmod, Rfloor.
  destruct (base_Int_part (a / b)) as [Hle Hgt].
  assert (Ha : a = b * (a / b)) by (field; lra).
  split.
  - assert (b * IZR (Int_part (a / b)) <= b * (a / b)) by (apply Rmult_le_compat_l; lra).
    lra.
  - assert (b * (a / b - 1) < b * IZR (Int_part (a / b))) by (apply Rmult_lt_compat_l; lra).
    lra.
Qed.

Lemma two_PI_neq_0 : 2 * PI ≠ 0.
Proof. pose proof PI_RGT_0. lra. Qed.

(** ** HeightMap.phase_to_height_map *)

(** C4: adding [n] full cycles [2π·n] to every entry of the phase does not
    change the height map computed by [phase_to_height_map], for every
    phase tensor, every integer [n] and every wavelength index (over the
    reals; on an index out of range both calls raise IndexError). *)
Theorem phase_to_height_map_full_cycles
    (self : HeightMap.t) (phi : tensor R) (n : Z) (idx : nat) :
  HeightMap.phase_to_height_map self (tmap (λ p, p + 2 * PI * IZR n) phi) idx
  = HeightMap.phase_to_height_map self phi idx.
Proof.
  unfold HeightMap.phase_to_height_map.
  destruct (getitem (HeightMap.wave_lengths self) idx) as [wl|e]; simpl; [|reflexivity].
  destruct (getitem (tflatten (HeightMap.delta_N self)) idx) as [dn|e]; simpl; [|reflexivity].
  f_equal. rewrite !tmap_tmap. apply tmap_ext; intros p.
  rewrite (Rmod_add_cycles p (2 * PI) n two_PI_neq_0). reflexivity.
Qed.

(** The conversion succeeds on every index that names a wavelength. *)
Lemma phase_to_height_map_valid_idx
    (self : HeightMap.t) (phi : tensor R) (idx : nat) (wl dn : R) :
  HeightMap.wave_lengths self !! idx = Some wl →
  tflatten (HeightMap.delta_N self) !! idx = Some dn →
  HeightMap.phase_to_height_map self phi idx
  = Ok (tmap (λ p, Rmod p (2 * PI) / (2 * PI / wl) / dn) phi).
Proof.
  intros Hwl Hdn. unfold HeightMap.phase_to_height_map, getitem.
  rewrite Hwl, Hdn. simpl. rewrite tmap_tmap. reflexivity.
Qed.

(** ** The free-form height field *)

(** The square of the parameter is non-negative at every entry. *)
Lemma free_form_height_nonneg (self : HeightMap.t) (h : tensor R) :
  HeightMap.free_form_height self = Ok h → all_entries (λ v, 0 <= v) h.
Proof.
  unfold HeightMap.free_form_height.
  destruct (HeightMap.height_map_sqrt self) as [p|]; simpl; [|discriminate].
  intros [= <-]. apply all_entries_tmap. intros a. nra.
Qed.

(** ** HeightMap.get_phase_profile *)

(** The argument of [get_phase_profile] never reaches the result. *)
Lemma get_phase_profile_arg_irrelevant (self : HeightMap.t) (a b : option (tensor R)) :
  HeightMap.get_phase_profile self a = HeightMap.get_phase_profile self b.
Proof. reflexivity. Qed.

(** In free-form mode the profile is that of the squared parameter. *)
Lemma get_phase_profile_free_form (self : HeightMap.t) (arg : option (tensor R)) (p : tensor R) :
  HeightMap.zernike_volume self = None →
  HeightMap.height_map_sqrt self = Some p →
  HeightMap.get_phase_profile self arg
  = Ok (phase_profile_of_height self (tmap (λ v, v * v) p)).
Proof.
  intros Hz Hp. unfold HeightMap.get_phase_profile, HeightMap.free_form_height.
  rewrite Hz, Hp. reflexivity.
Qed.

Lemma cexp_i_0 (x : R) : x = 0 → cexp_i x = Cx 1 0.
Proof. intros ->. unfold cexp_i. rewrite cos_0, sin_0. reflexivity. Qed.

Lemma cexp_i_PI (x : R) : x = PI → cexp_i x = Cx (-1) 0.
Proof. intros ->. unfold cexp_i. rewrite cos_PI, sin_PI. reflexivity. Qed.

(** C1: on the free-form height map [hm_flat] (default wavelengths and
    refractive indices, parameter [height_map_sqrt] all zero) and the
    supplied half-wave height [half_wave_height], [get_phase_profile]
    returns the profile of the internal parameter, 1 in every channel,
    whereas exp(i * wave_nos * delta_N * h) is -1 in the green channel. *)
Theorem get_phase_profile_discards_height_map :
  HeightMap.get_phase_profile hm_flat (Some half_wave_height)
  = Ok [[ [[Cx 1 0]]; [[Cx 1 0]]; [[Cx 1 0]] ]]
  ∧ ∃ red blue,
      phase_profile_of_height hm_flat half_wave_height
      = [[ [[red]]; [[Cx (-1) 0]]; [[blue]] ]].
Proof.
  split.
  - unfold HeightMap.get_phase_profile, hm_flat; simpl.
    repeat f_equal; apply cexp_i_0; ring.
  - eexists _, _. unfold phase_profile_of_height, hm_flat, half_wave_height; simpl.
    repeat f_equal. apply cexp_i_PI. field. lra.
Qed.

(** ** HeightMap.__init__ *)

Lemma mapM_result_total {A B} (f : A → result B) (g : A → B) (xs : list A) :
  (∀ x, f x = Ok (g x)) → mapM_result f xs = Ok (map g xs).
Proof.
  intros Hf. induction xs as [|x xs IH]; simpl; [reflexivity|].
  rewrite Hf, IH. reflexivity.
Qed.

Lemma tflatten_view {A} (f : A → R) (l : list A) :
  tflatten [map (λ a, [[f a]]) l] = map f l.
Proof.
  unfold tflatten, gflatten. simpl. rewrite app_nil_r.
  induction l as [|a l IH]; simpl; [reflexivity|]. rewrite IH. reflexivity.
Qed.

(** C9: with a Zernike basis of K = [length zv] slices and a coefficient
    dictionary, the constructor succeeds and creates exactly K coefficient
    parameters (and no free-form parameter); the k-th one holds the
    dictionary's value for k, and 0 when k is not a key. *)
Theorem zernike_init_coefficients
    (zv : list (grid R)) (coefs : gmap nat R) (shape : nat * nat * nat * nat)
    (wl ri : list R) (xx yy : grid R) (d : R) :
  ∃ self cs,
    HeightMap.__init__ (Some zv) (Some coefs) shape wl ri xx yy d = Ok self
    ∧ HeightMap.zernike_coeffs self = Some cs
    ∧ HeightMap.height_map_sqrt self = None
    ∧ length cs = length zv
    ∧ (∀ k, (k < length zv)%nat → cs !! k = Some (default 0 (coefs !! k)))
    ∧ (∀ k, (k < length zv)%nat → coefs !! k = None → cs !! k = Some 0).
Proof.
  set (cs := map (λ k, default 0 (coefs !! k)) (seq 0 (length zv))).
  assert (Hlook : ∀ k, (k < length zv)%nat → cs !! k = Some (default 0 (coefs !! k))).
  { intros k Hk. unfold cs. rewrite list_lookup_fmap, lookup_seq_lt by exact Hk.
    reflexivity. }
  eexists _, cs. split; [|repeat split].
  - unfold HeightMap.__init__.
    rewrite (mapM_result_total _ (λ k, default 0 (coefs !! k))) by reflexivity.
    reflexivity.
  - reflexivity.
  - reflexivity.
  - unfold cs. rewrite length_map, length_seq. reflexivity.
  - exact Hlook.
  - intros k Hk Hnone. rewrite (Hlook k Hk), Hnone. reflexivity.
Qed.

(** The coefficient dictionary left at None (the default of
    [DOEModelConfig]) makes the constructor fail on a non-empty basis. *)
Lemma zernike_init_without_dict
    (g : grid R) (zv : list (grid R)) (shape : nat * nat * nat * nat)
    (wl ri : list R) (xx yy : grid R) (d : R) :
  HeightMap.__init__ (Some (g :: zv)) None shape wl ri xx yy d = Raise AttributeError.
Proof. reflexivity. Qed.

(** The spec's initial parameter agrees with the constructor's. *)
Lemma fresnel_init_entry (wl n d x y : R) :
  sqrt (Rmod (Rmod (- (2 * PI / wl) * ((x ^ 2 + y ^ 2) / (2 * d))) (PI * 2)) (2 * PI)
        / (2 * PI / wl) / (n - 1))
  = fresnel_init_spec wl n d x y.
Proof.
  unfold fresnel_init_spec, phase_to_height, fresnel_lens_phase.
  rewrite (Rmult_comm PI 2).
  replace (- (2 * PI / wl) * ((x ^ 2 + y ^ 2) / (2 * d)))
    with (- (2 * PI / wl) * (x ^ 2 + y ^ 2) / (2 * d))
    by (unfold Rdiv; ring).
  reflexivity.
Qed.

(** The record the free-form constructor returns. *)
Lemma free_form_init_eq
    (coefs : option (gmap nat R)) (shape : nat * nat * nat * nat)
    (wl ri : list R) (xx yy : grid R) (d g n : R) :
  wl !! 1%nat = Some g →
  ri !! 1%nat = Some n →
  HeightMap.__init__ None coefs shape wl ri xx yy d
  = Ok (HeightMap.Build None coefs wl ri
          [map (λ r, [[r - 1]]) ri] [map (λ l, [[2 * PI / l]]) wl] xx yy d
          (Some (unsqueeze2 (gzip (fresnel_init_spec g n d) xx yy))) None).
Proof.
  intros Hg Hn.
  unfold HeightMap.__init__, HeightMap._fresnel_phase_init, getitem.
  cbn [HeightMap.wave_lengths HeightMap.xx HeightMap.yy HeightMap.sensor_distance].
  rewrite Hg. cbn [rbind].
  rewrite (phase_to_height_map_valid_idx _ _ 1 g (n - 1)).
  - cbn [rbind]. do 3 f_equal.
    rewrite !tmap_unsqueeze2. f_equal.
    rewrite gzip_gmap2d, !gmap2d_gzip.
    apply gzip_ext; intros x y. apply fresnel_init_entry.
  - exact Hg.
  - cbn [HeightMap.delta_N].
    rewrite (tflatten_view (λ r, r - 1)), list_lookup_fmap, Hn. reflexivity.
Qed.

Lemma Rmod_by_quotient (a b : R) (q : Z) :
  0 < b → b * IZR q <= a < b * (IZR q + 1) → Rmod a b = a - b * IZR q.
Proof.
  intros Hb [Hlo Hhi]. unfold Rmod, Rfloor. do 3 f_equal. symmetry.
  apply Int_part_spec.
  assert (Ha : a = b * (a / b)) by (field; lra).
  set (t := a / b) in *. rewrite Ha in Hlo, Hhi.
  split.
  - apply (Rmult_lt_reg_l b); [exact Hb|]. lra.
  - apply (Rmult_le_reg_l b); [exact Hb|]. lra.
Qed.

Lemma Rmod_0 (b : R) : 0 < b → Rmod 0 b = 0.
Proof. intros Hb. rewrite (Rmod_by_quotient 0 b 0) by (try split; lra). ring. Qed.

(** [hm_flat] is the height map the constructor builds on the sample at
    the origin. *)
Lemma hm_flat_fresh :
  HeightMap.__init__ None None (1, 3, 1, 1)%nat default_wave_lengths
                     default_refractive_idcs [[0]] [[0]] default_sensor_distance
  = Ok hm_flat.
Proof.
  rewrite (free_form_init_eq _ _ _ _ _ _ _ (550 * 1e-9) 1.4599) by reflexivity.
  unfold hm_flat. do 3 f_equal. unfold unsqueeze2, gzip; simpl. do 3 f_equal.
  unfold fresnel_init_spec, phase_to_height, fresnel_lens_phase.
  pose proof PI_RGT_0 as Hpi.
  replace (- (2 * PI / (550 * 1e-9)) * (0 ^ 2 + 0 ^ 2) / (2 * default_sensor_distance))
    with 0 by (unfold default_sensor_distance; field).
  rewrite !Rmod_0 by lra.
  unfold Rdiv. rewrite !Rmult_0_l, sqrt_0. reflexivity.
Qed.

(** ** build_baseline_profile *)

(** C10: on a model with a Zernike basis, [build_baseline_profile] raises
    UnboundLocalError: the Zernike branch leaves the local [height_map]
    unbound and the call reads it. *)
Theorem build_baseline_profile_zernike_raises
    (m : RGBCollimator.t) (zv : list (grid R)) :
  RGBCollimator.zernike_volume m = Some zv →
  build_baseline_profile m = Raise UnboundLocalError.
Proof.
  intros Hz. unfold build_baseline_profile. rewrite Hz. reflexivity.
Qed.

(** ** RGBCollimator._get_circular_aperture *)

Section lookup_facts.
Context {A B C : Type}.

Lemma bcast2_lookup (f : A → B → C) (xs : list A) (ys : list B) (i : nat) (a : A) (b : B) :
  xs !! i = Some a → ys !! i = Some b → bcast2 f xs ys !! i = Some (f a b).
Proof.
  intros Ha Hb.
  assert (Hz : zip_with f xs ys !! i = Some (f a b)).
  { rewrite lookup_zip_with, Ha, Hb. reflexivity. }
  destruct xs as [|x [|x' xs]]; destruct ys as [|y [|y' ys]];
    try discriminate; try exact Hz; unfold bcast2.
  - destruct i as [|i]; [|discriminate]. injection Ha as <-.
    rewrite list_lookup_fmap, Hb. reflexivity.
  - destruct i as [|i]; [|discriminate]. injection Hb as <-.
    rewrite list_lookup_fmap, Ha. reflexivity.
Qed.

Lemma bcast2_same_length (f : A → B → C) (xs : list A) (ys : list B) :
  length xs = length ys → bcast2 f xs ys = zip_with f xs ys.
Proof.
  destruct xs as [|x [|x' xs]]; destruct ys as [|y [|y' ys]];
    try discriminate; reflexivity.
Qed.

End lookup_facts.

Section grid_lookup_facts.
Context {A B C : Type}.

Lemma gzip_entry (f : A → B → C) (a : grid A) (b : grid B) (i j : nat) (x : A) (y : B) :
  entry a i j = Some x → entry b i j = Some y →
  entry (gzip f a b) i j = Some (f x y).
Proof.
  unfold entry, gzip. intros Ha Hb.
  destruct (a !! i) as [ra|] eqn:Hra; [|discriminate].
  destruct (b !! i) as [rb|] eqn:Hrb; [|discriminate].
  simpl in Ha, Hb.
  pose proof (bcast2_lookup (bcast2 f) a b i ra rb Hra Hrb) as Hrow.
  unfold grid in *. rewrite Hrow. simpl.
  apply bcast2_lookup; assumption.
Qed.

Lemma gzip_shape (f : A → B → C) (a : grid A) (b : grid B) :
  same_shape a b → same_shape (gzip f a b) a.
Proof.
  unfold same_shape, gzip. intros Hab.
  rewrite bcast2_same_length
    by (rewrite <- (length_map length a), Hab; apply length_map).
  revert b Hab. induction a as [|r a IH]; intros [|r' b] Hab;
    try discriminate; [reflexivity|].
  injection Hab as Hr Hab. simpl. f_equal; [|apply IH, Hab].
  rewrite bcast2_same_length by exact Hr.
  apply length_zip_with_l_eq, Hr.
Qed.
End grid_lookup_facts.

Lemma lmax_spec (xs : list R) (m : R) :
  lmax xs = Ok m → m ∈ xs ∧ ∀ x, x ∈ xs → x <= m.
Proof.
  destruct xs as [|x xs]; [discriminate|]. intros [= <-].
  induction xs as [|y xs [IHin IHub]]; simpl.
  - split; [left|]. intros z Hz. apply list_elem_of_singleton in Hz as ->. lra.
  - split.
    + unfold Rmax at 1. destruct (Rle_dec _ _).
      * apply elem_of_cons in IHin as [->|Hin]; [left | do 2 right; exact Hin].
      * right; left.
    + intros z Hz. pose proof (Rmax_l y (foldr Rmax x xs)).
      pose proof (Rmax_r y (foldr Rmax x xs)).
      apply elem_of_cons in Hz as [->|Hz].
      * specialize (IHub x (ltac:(left))). lra.
      * apply elem_of_cons in Hz as [->|Hz]; [lra|].
        specialize (IHub z (ltac:(right; exact Hz))). lra.
Qed.

Lemma lmax_nonempty (xs : list R) : xs ≠ [] → ∃ m, lmax xs = Ok m.
Proof. destruct xs as [|x xs]; [congruence|]. intros _. eexists. reflexivity. Qed.

(** The mask computed by the code, entry by entry, given the maximum. *)
Lemma circular_aperture_eq (xx yy : grid R) (m : R) :
  lmax (gflatten xx) = Ok m →
  RGBCollimator._get_circular_aperture xx yy
  = Ok (unsqueeze2
          (gzip (λ x y, if Rlt_dec (sqrt (x ^ 2 + y ^ 2)) m then 1 else 0) xx yy)).
Proof.
  intros Hm. unfold RGBCollimator._get_circular_aperture. rewrite Hm. cbn [rbind].
  do 2 f_equal. rewrite gzip_gmap2d, !gmap2d_gzip. reflexivity.
Qed.

(** C7 (amended): on coordinate grids of one shape with at least one
    sample, the aperture mask is a (1,1,H,W) tensor of the shape of the
    grid whose entry at a sample (x, y) is 1 when sqrt(x²+y²) is strictly
    below the largest entry of the x-coordinate grid, [xx.max()], and 0
    otherwise. *)
Theorem circular_aperture_mask (xx yy : grid R) :
  same_shape xx yy →
  gflatten xx ≠ [] →
  ∃ m mask,
    grid_max xx m
    ∧ RGBCollimator._get_circular_aperture xx yy = Ok (unsqueeze2 mask)
    ∧ same_shape mask xx
    ∧ ∀ i j x y,
        entry xx i j = Some x → entry yy i j = Some y →
        entry mask i j
        = Some (if Rlt_dec (sqrt (x ^ 2 + y ^ 2)) m then 1 else 0).
Proof.
  intros Hshape Hne.
  destruct (lmax_nonempty _ Hne) as [m Hm].
  exists m. eexists. split; [exact (lmax_spec _ _ Hm)|].
  split; [apply circular_aperture_eq, Hm|].
  split; [apply gzip_shape, Hshape|].
  intros i j x y Hx Hy.
  exact (gzip_entry (λ x y, if Rlt_dec (sqrt (x ^ 2 + y ^ 2)) m then 1 else 0)
                    xx yy i j x y Hx Hy).
Qed.

Lemma sqrt_of_1 (x : R) : x = 1 → sqrt x = 1.
Proof. intros ->. apply sqrt_1. Qed.

Lemma lmax_xx3 : lmax (gflatten xx3) = Ok 1.
Proof.
  simpl. f_equal. unfold Rmax. repeat destruct (Rle_dec _ _); lra.
Qed.

(** C7, as stated, fails on the centred 3 x 3 grid: the sample (-1, 0) has
    radius 1, below the maximum radius sqrt 2 of the grid, and its mask
    entry is 0, because the bound of the code is [xx.max()] = 1. *)
Lemma aperture_max_radius_counterexample :
  ∃ mask spec_mask,
    RGBCollimator._get_circular_aperture xx3 yy3 = Ok (unsqueeze2 mask)
    ∧ aperture_by_max_radius xx3 yy3 = Ok (unsqueeze2 spec_mask)
    ∧ entry mask 0 1 = Some 0
    ∧ entry spec_mask 0 1 = Some 1.
Proof.
  destruct (lmax (gflatten (radius_grid xx3 yy3))) as [rmax|] eqn:Hmax;
    [|discriminate].
  assert (Hlt : 1 < rmax).
  { apply lmax_spec in Hmax as [_ Hub].
    specialize (Hub (sqrt ((-1) ^ 2 + (-1) ^ 2)) ltac:(left)).
    assert (sqrt 1 < sqrt ((-1) ^ 2 + (-1) ^ 2)) by (apply sqrt_lt_1; lra).
    rewrite sqrt_1 in *. lra. }
  eexists _, _. split; [exact (circular_aperture_eq xx3 yy3 1 lmax_xx3)|].
  split; [unfold aperture_by_max_radius; rewrite Hmax; reflexivity|].
  split.
  - rewrite (gzip_entry _ xx3 yy3 0 1 (-1) 0) by reflexivity.
    rewrite (sqrt_of_1 ((-1) ^ 2 + 0 ^ 2)) by ring.
    destruct (Rlt_dec 1 1); [lra|reflexivity].
  - unfold radius_grid. rewrite gmap2d_gzip.
    rewrite (gzip_entry _ xx3 yy3 0 1 (-1) 0) by reflexivity.
    rewrite (sqrt_of_1 ((-1) ^ 2 + 0 ^ 2)) by ring.
    destruct (Rlt_dec 1 rmax); [reflexivity|lra].
Qed.

Lemma circular_aperture_mask_witness :
  ∃ m mask,
    grid_max xx3 m
    ∧ RGBCollimator._get_circular_aperture xx3 yy3 = Ok (unsqueeze2 mask)
    ∧ same_shape mask xx3
    ∧ ∀ i j x y,
        entry xx3 i j = Some x → entry yy3 i j = Some y →
        entry mask i j
        = Some (if Rlt_dec (sqrt (x ^ 2 + y ^ 2)) m then 1 else 0).
Proof.
  apply (circular_aperture_mask xx3 yy3).
  - reflexivity.
  - simpl. discriminate.
Defined.

(** ** RGBCollimator.get_psf *)

Lemma lsum_map_div {A} (g : A → R) (s : R) (l : list A) :
  lsum (map (λ a, g a / s) l) = lsum (map g l) / s.
Proof.
  induction l as [|a l IH]; simpl.
  - unfold Rdiv. ring.
  - rewrite IH. unfold Rdiv. ring.
Qed.

Lemma tsum_tmap_div (s : R) (t : tensor R) :
  tsum (tmap (λ v, v / s) t) = tsum t / s.
Proof.
  unfold tsum, tmap, gsum, gmap2d.
  rewrite map_map, <- lsum_map_div. f_equal. apply map_ext; intros cs.
  rewrite map_map, <- lsum_map_div. f_equal. apply map_ext; intros g.
  rewrite map_map, <- lsum_map_div. f_equal. apply map_ext; intros row.
  rewrite <- (map_id row) at 2. apply (lsum_map_div (λ v, v)).
Qed.

(** C2 (amended): whenever the downsampled intensity has a non-zero total,
    [get_psf] returns that intensity divided, entry by entry and in every
    channel alike, by the one total over the whole tensor, and the result
    sums to 1 (over the reals). *)
Theorem get_psf_normalised
    (area_downsampling : tensor R → nat → tensor R)
    (self : RGBCollimator.t) (phase_profile : option (tensor complex))
    (psfs : tensor R) :
  RGBCollimator.psf_intensity area_downsampling self phase_profile = Ok psfs →
  tsum psfs ≠ 0 →
  ∃ out,
    RGBCollimator.get_psf area_downsampling self phase_profile = Ok out
    ∧ out = tmap (λ v, v / tsum psfs) psfs
    ∧ tsum out = 1.
Proof.
  intros Hpsf Hsum. eexists. split; [|split; [reflexivity|]].
  - unfold RGBCollimator.get_psf. rewrite Hpsf. reflexivity.
  - rewrite tsum_tmap_div. field. exact Hsum.
Qed.

(** On a single sample the aperture is closed: the radius is never below
    the largest, and only, x-coordinate. *)
Lemma single_sample_aperture (x y : R) :
  RGBCollimator._get_circular_aperture [[x]] [[y]] = Ok [[[[0]]]].
Proof.
  rewrite (circular_aperture_eq _ _ x) by reflexivity.
  unfold unsqueeze2, gzip; simpl. do 5 f_equal.
  destruct (Rlt_dec _ _) as [Hlt|]; [|reflexivity].
  exfalso. apply (Rlt_irrefl x). eapply Rle_lt_trans; [|exact Hlt].
  destruct (Rle_dec 0 x) as [Hx|Hx].
  - rewrite <- (sqrt_square x Hx) at 1. apply sqrt_le_1_alt. nra.
  - pose proof (sqrt_pos (x * (x * 1) + y * (y * 1))). lra.
Qed.

(** [dark_model] is what the constructor builds for wave resolution (1,1)
    on the sample at the origin. *)
Lemma dark_model_constructed :
  RGBCollimator.__init__ origin_coordinate free_space_propagator
    None None default_sensor_distance default_refractive_idcs
    default_wave_lengths 1 2e-6 (1%nat, 1%nat)
  = Ok dark_model.
Proof.
  unfold RGBCollimator.__init__, origin_coordinate.
  rewrite single_sample_aperture. cbn [rbind fst snd].
  rewrite hm_flat_fresh. reflexivity.
Qed.

Lemma cabs_dark (z : complex) : cabs (rscale 0 z) = 0.
Proof.
  unfold cabs, rscale; simpl.
  replace (0 * re z * (0 * re z) + 0 * im z * (0 * im z)) with 0 by ring.
  apply sqrt_0.
Qed.

(** C2, as stated, fails on the collimator of wave resolution (1,1): its
    aperture is the zero mask, the intensity is zero, and the PSF sums to 0
    (NaN in torch), not to 1. *)
Lemma get_psf_dark_counterexample :
  RGBCollimator._get_circular_aperture
    (RGBCollimator.xx dark_model) (RGBCollimator.yy dark_model)
  = Ok (RGBCollimator.aperture dark_model)
  ∧ ∃ out,
      RGBCollimator.get_psf unit_pooling dark_model None = Ok out
      ∧ tsum out = 0.
Proof.
  split; [apply single_sample_aperture|].
  eexists. split; [reflexivity|].
  unfold tsum, gsum, lsum, unit_pooling, free_space; simpl.
  rewrite !cabs_dark. unfold Rdiv. ring.
Qed.

Lemma disc_inside (x y : R) :
  x ^ 2 + y ^ 2 < 1 → (if Rlt_dec (sqrt (x ^ 2 + y ^ 2)) 1 then 1 else 0) = 1.
Proof.
  intros H. destruct (Rlt_dec _ _) as [|Hn]; [reflexivity|].
  exfalso. apply Hn. apply Rlt_le_trans with (sqrt 1).
  - apply sqrt_lt_1_alt. split; [nra|exact H].
  - rewrite sqrt_1. lra.
Qed.

Lemma disc_outside (x y : R) :
  1 <= x ^ 2 + y ^ 2 → (if Rlt_dec (sqrt (x ^ 2 + y ^ 2)) 1 then 1 else 0) = 0.
Proof.
  intros H. destruct (Rlt_dec _ _) as [Hlt|]; [|reflexivity].
  exfalso. apply (Rlt_irrefl 1). eapply Rle_lt_trans; [|exact Hlt].
  apply Rle_trans with (sqrt 1); [rewrite sqrt_1; lra|].
  apply sqrt_le_1_alt, H.
Qed.

(** The aperture of [lit_model] is the one the code computes on its grid. *)
Lemma lit_model_aperture :
  RGBCollimator._get_circular_aperture
    (RGBCollimator.xx lit_model) (RGBCollimator.yy lit_model)
  = Ok (RGBCollimator.aperture lit_model).
Proof.
  cbn [RGBCollimator.xx RGBCollimator.yy RGBCollimator.aperture lit_model].
  rewrite (circular_aperture_eq xx3 yy3 1 lmax_xx3).
  unfold unsqueeze2, gzip, xx3, yy3, centre_only, bcast2, zip_with.
  repeat f_equal; first [apply disc_inside; lra | apply disc_outside; lra].
Qed.

Lemma intensity_entry (a t : R) :
  t = 0 → a = 0 ∨ a = 1 → cabs (rscale a (cscale (cexp_i t) 1)) ^ 2 = a.
Proof.
  intros Ht Ha. rewrite (cexp_i_0 t Ht). unfold cabs, rscale, cscale; simpl.
  destruct Ha as [-> | ->].
  - replace (0 * (1 * 1) * (0 * (1 * 1)) + 0 * (0 * 1) * (0 * (0 * 1))) with 0 by ring.
    rewrite sqrt_0. ring.
  - rewrite sqrt_of_1 by ring. ring.
Qed.

Lemma lit_model_intensity :
  RGBCollimator.psf_intensity unit_pooling lit_model None
  = Ok [[centre_only; centre_only; centre_only]].
Proof.
  unfold RGBCollimator.psf_intensity, unit_pooling, free_space, centre_only.
  simpl rbind. unfold tmap, gmap2d, tzip, gzip, bcast2, zip_with, map, replicate.
  repeat f_equal; apply intensity_entry; first [ring | left; reflexivity | right; reflexivity].
Qed.

Lemma get_psf_normalised_witness :
  ∃ out,
    RGBCollimator.get_psf unit_pooling lit_model None = Ok out
    ∧ out = tmap (λ v, v / tsum [[centre_only; centre_only; centre_only]])
                 [[centre_only; centre_only; centre_only]]
    ∧ tsum out = 1.
Proof.
  apply (get_psf_normalised unit_pooling lit_model None
           [[centre_only; centre_only; centre_only]] lit_model_intensity).
  unfold tsum, gsum, lsum; simpl. lra.
Defined.

(** ** build_baseline_profile in free-form mode *)

(** In free-form mode, on a model with a green wavelength, the result is
    the profile of the current parameter: the height map computed from the
    Fresnel phase is passed on and dropped by [get_phase_profile]. *)
Lemma build_baseline_profile_free_form (m : RGBCollimator.t) (g g' dn : R) :
  RGBCollimator.zernike_volume m = None →
  RGBCollimator.wave_lengths m !! 1%nat = Some g →
  HeightMap.wave_lengths (RGBCollimator.height_map m) !! 1%nat = Some g' →
  tflatten (HeightMap.delta_N (RGBCollimator.height_map m)) !! 1%nat = Some dn →
  build_baseline_profile m
  = HeightMap.get_phase_profile (RGBCollimator.height_map m) None.
Proof.
  intros Hz Hg Hg' Hdn. unfold build_baseline_profile, getitem.
  rewrite Hz, Hg. cbn [rbind].
  rewrite (phase_to_height_map_valid_idx _ _ 1 g' dn Hg' Hdn). reflexivity.
Qed.

Lemma mm_fresnel_phase : fresnel_lens_phase (500 * 1e-9) 2 (-1e-3) 0 = PI.
Proof.
  unfold fresnel_lens_phase. pose proof PI_RGT_0 as Hpi.
  replace (- (2 * PI / (500 * 1e-9)) * ((-1e-3) ^ 2 + 0 ^ 2) / (2 * 2))
    with (- PI) by field.
  rewrite (Rmod_by_quotient (- PI) (2 * PI) (-1)) by (try split; lra).
  ring.
Qed.

(** C3: on the free-form collimator [mm_model] (2 x 2 grid, sample interval
    1 mm, green wavelength 500 nm, sensor at 2 m, parameter set to zero)
    [build_baseline_profile] returns the profile 1 at every sample of every
    channel, whereas the ideal Fresnel phase of the green wavelength at the
    sample (-1 mm, 0) is π modulo 2π, whose profile is -1. *)
Theorem build_baseline_profile_loses_fresnel_phase :
  build_baseline_profile mm_model
  = Ok [replicate 3 [[Cx 1 0; Cx 1 0]; [Cx 1 0; Cx 1 0]]]
  ∧ entry mm_xx 0 1 = Some (-1e-3)
  ∧ entry mm_yy 0 1 = Some 0
  ∧ cexp_i (fresnel_lens_phase (500 * 1e-9) 2 (-1e-3) 0) = Cx (-1) 0.
Proof.
  split; [|split; [reflexivity|split; [reflexivity|]]].
  - rewrite (build_baseline_profile_free_form mm_model (500 * 1e-9) (500 * 1e-9)
               (1.4599 - 1)) by reflexivity.
    unfold HeightMap.get_phase_profile, HeightMap.free_form_height; simpl.
    repeat f_equal; apply cexp_i_0; ring.
  - apply cexp_i_PI, mm_fresnel_phase.
Qed.

Lemma build_baseline_profile_zernike_raises_witness :
  build_baseline_profile zernike_model = Raise UnboundLocalError.
Proof.
  apply (build_baseline_profile_zernike_raises zernike_model [[[1]]]).
  reflexivity.
Defined.

(** * Further properties of the optics model *)

(** ** phase_to_height_map: range, round trip, wrapping *)

Lemma all_entries_tmap_id {A} (P : A → Prop) (f : A → A) (t : tensor A) :
  all_entries P t → (∀ a, P a → f a = a) → tmap f t = t.
Proof.
  intros Ht Hf. unfold all_entries, tmap, gmap2d in *.
  assert (Hmap : ∀ (B : Type) (g : B → B) (l : list B),
             Forall (λ b, g b = b) l → map g l = l).
  { intros B g l Hl. induction Hl as [|b l Hb _ IH]; simpl; congruence. }
  apply Hmap. eapply Forall_impl; [exact Ht|]. intros cs Hcs.
  apply Hmap. eapply Forall_impl; [exact Hcs|]. intros g Hg.
  apply Hmap. eapply Forall_impl; [exact Hg|]. intros row Hrow.
  apply Hmap. eapply Forall_impl; [exact Hrow|]. exact Hf.
Qed.

Lemma Rmod_idempotent (p b : R) : b ≠ 0 → Rmod (Rmod p b) b = Rmod p b.
Proof.
  intros Hb. unfold Rmod at 2.
  replace (p - b * IZR (Rfloor (p / b))) with (p + b * IZR (- Rfloor (p / b)))
    by (rewrite opp_IZR; ring).
  apply Rmod_add_cycles, Hb.
Qed.

Lemma wrapped_height_range (p wl dn : R) :
  0 < wl → 0 < dn →
  0 <= Rmod p (2 * PI) / (2 * PI / wl) / dn < wl / dn.
Proof.
  intros Hwl Hdn. pose proof PI_RGT_0 as Hpi.
  destruct (Rmod_range p (2 * PI) ltac:(lra)) as [Hlo Hhi].
  set (r := Rmod p (2 * PI)) in *.
  replace (r / (2 * PI / wl) / dn) with (r / (2 * PI) * (wl / dn)) by (field; lra).
  assert (Hq : 0 < wl / dn) by (apply Rdiv_lt_0_compat; lra).
  assert (Hr0 : 0 <= r / (2 * PI)).
  { apply (Rmult_le_reg_r (2 * PI)); [lra|].
    replace (r / (2 * PI) * (2 * PI)) with r by (field; lra). lra. }
  assert (Hr1 : r / (2 * PI) < 1).
  { apply (Rmult_lt_reg_r (2 * PI)); [lra|].
    replace (r / (2 * PI) * (2 * PI)) with r by (field; lra). lra. }
  split; nra.
Qed.

(** X1: for a wavelength and a refractive-index difference that are
    positive, every entry of the height map lies in [0, wl/dn): the heights
    never reach a full wave. *)
Theorem phase_to_height_map_range
    (self : HeightMap.t) (phi : tensor R) (idx : nat) (wl dn : R) :
  HeightMap.wave_lengths self !! idx = Some wl →
  tflatten (HeightMap.delta_N self) !! idx = Some dn →
  0 < wl → 0 < dn →
  ∃ h, HeightMap.phase_to_height_map self phi idx = Ok h
       ∧ all_entries (λ v, 0 <= v < wl / dn) h.
Proof.
  intros Hwl Hdn Hwl0 Hdn0. eexists. split.
  - apply (phase_to_height_map_valid_idx self phi idx wl dn Hwl Hdn).
  - apply all_entries_tmap. intros p. apply wrapped_height_range; assumption.
Qed.

Lemma phase_to_height_map_range_witness :
  ∃ h, HeightMap.phase_to_height_map hm_flat [[[[7; -3]]]] 1 = Ok h
       ∧ all_entries (λ v, 0 <= v < 550 * 1e-9 / (1.4599 - 1)) h.
Proof.
  apply (phase_to_height_map_range hm_flat [[[[7; -3]]]] 1
           (550 * 1e-9) (1.4599 - 1)); [reflexivity | reflexivity | lra | lra].
Defined.

(** X2: heights below a full wave survive the round trip through their
    phase: converting the phase wave_no·delta_n·h of such a height map back
    returns the height map. *)
Theorem height_phase_height_roundtrip
    (self : HeightMap.t) (h : tensor R) (idx : nat) (wl dn : R) :
  HeightMap.wave_lengths self !! idx = Some wl →
  tflatten (HeightMap.delta_N self) !! idx = Some dn →
  0 < wl → 0 < dn →
  all_entries (λ v, 0 <= v < wl / dn) h →
  HeightMap.phase_to_height_map self (tmap (λ v, 2 * PI / wl * dn * v) h) idx
  = Ok h.
Proof.
  intros Hwl Hdn Hwl0 Hdn0 Hh. pose proof PI_RGT_0 as Hpi.
  rewrite (phase_to_height_map_valid_idx self _ idx wl dn Hwl Hdn).
  f_equal. rewrite tmap_tmap.
  apply (all_entries_tmap_id _ _ _ Hh). intros v [Hlo Hhi].
  assert (Hk : 0 < 2 * PI / wl * dn).
  { apply Rmult_lt_0_compat; [apply Rdiv_lt_0_compat|]; lra. }
  assert (Hv : 2 * PI / wl * dn * v < 2 * PI).
  { replace (2 * PI) with (2 * PI / wl * dn * (wl / dn)) at 2 by (field; lra).
    apply Rmult_lt_compat_l; assumption. }
  rewrite (Rmod_by_quotient _ (2 * PI) 0) by (try split; nra).
  field. lra.
Qed.

Lemma height_phase_height_roundtrip_witness :
  HeightMap.phase_to_height_map hm_flat
    (tmap (λ v, 2 * PI / (550 * 1e-9) * (1.4599 - 1) * v) [[[[0; 1e-7]]]]) 1
  = Ok [[[[0; 1e-7]]]].
Proof.
  apply (height_phase_height_roundtrip hm_flat [[[[0; 1e-7]]]] 1
           (550 * 1e-9) (1.4599 - 1)); [reflexivity | reflexivity | lra | lra |].
  unfold all_entries.
  repeat match goal with |- Forall _ _ => constructor end.
  all: split; [lra|].
  all: apply (Rmult_lt_reg_r (1.4599 - 1)); [lra|];
    replace (550 * 1e-9 / (1.4599 - 1) * (1.4599 - 1)) with (550 * 1e-9)
      by (field; lra); lra.
Defined.

(** X3: wrapping the phase before the call changes nothing: the
    conversion of phi mod 2π is the conversion of phi. *)
Theorem phase_to_height_map_prewrapped
    (self : HeightMap.t) (phi : tensor R) (idx : nat) :
  HeightMap.phase_to_height_map self (tmap (λ p, Rmod p (2 * PI)) phi) idx
  = HeightMap.phase_to_height_map self phi idx.
Proof.
  unfold HeightMap.phase_to_height_map.
  destruct (getitem (HeightMap.wave_lengths self) idx) as [wl|e]; simpl; [|reflexivity].
  destruct (getitem (tflatten (HeightMap.delta_N self)) idx) as [dn|e]; simpl; [|reflexivity].
  f_equal. rewrite !tmap_tmap. apply tmap_ext; intros p.
  rewrite (Rmod_idempotent p (2 * PI) two_PI_neq_0). reflexivity.
Qed.

(** ** get_phase_profile: a pure phase *)

(** X5: whatever the mode and the argument, every entry of a profile that
    [get_phase_profile] returns has modulus 1. *)
Theorem get_phase_profile_unit_modulus
    (self : HeightMap.t) (arg : option (tensor R)) (prof : tensor complex) :
  HeightMap.get_phase_profile self arg = Ok prof →
  all_entries (λ z, cabs z = 1) prof.
Proof.
  unfold HeightMap.get_phase_profile.
  destruct (match HeightMap.zernike_volume self with
            | Some _ => _ | None => _ end) as [phi|e]; simpl; [|discriminate].
  intros [= <-]. apply all_entries_tmap. intros p.
  unfold cabs, cexp_i; simpl. apply sqrt_of_1.
  pose proof (sin2_cos2 p) as H. unfold Rsqr in H. lra.
Qed.

Lemma get_phase_profile_unit_modulus_witness :
  all_entries (λ z, cabs z = 1)
    (phase_profile_of_height signed_height_map [[ [[-2 * -2; 0.5 * 0.5]] ]]).
Proof.
  apply (get_phase_profile_unit_modulus signed_height_map None). reflexivity.
Defined.

(** X6: in free-form mode the profile depends on the parameter through its
    square only: negating every entry of [height_map_sqrt] leaves the
    profile as it is. *)
Theorem get_phase_profile_sign_blind
    (coefs : option (gmap nat R)) (wl ri : list R) (dN wn : tensor R)
    (xx yy : grid R) (d : R) (p : tensor R) (zc : option (list R))
    (arg : option (tensor R)) :
  HeightMap.get_phase_profile
    (HeightMap.Build None coefs wl ri dN wn xx yy d (Some (tmap Ropp p)) zc) arg
  = HeightMap.get_phase_profile
      (HeightMap.Build None coefs wl ri dN wn xx yy d (Some p) zc) arg.
Proof.
  unfold HeightMap.get_phase_profile, HeightMap.free_form_height; simpl.
  rewrite tmap_tmap. do 3 f_equal. apply tmap_ext; intros v. ring.
Qed.

(** ** HeightMap.__init__ in free-form mode *)

(** X7: on coordinate grids of one shape the free-form constructor reads
    index 1 of the wavelengths and of the refractive indices: it succeeds
    when both lists have two entries or more and raises IndexError
    otherwise. *)
Theorem free_form_init_needs_green
    (coefs : option (gmap nat R)) (shape : nat * nat * nat * nat)
    (wl ri : list R) (xx yy : grid R) (d : R) :
  same_shape xx yy →
  ((2 <= length wl)%nat ∧ (2 <= length ri)%nat
   ∧ ∃ self, HeightMap.__init__ None coefs shape wl ri xx yy d = Ok self)
  ∨ (((length wl < 2)%nat ∨ (length ri < 2)%nat)
     ∧ HeightMap.__init__ None coefs shape wl ri xx yy d = Raise IndexError).
Proof.
  intros _.
  destruct (wl !! 1%nat) as [g|] eqn:Hg.
  - destruct (ri !! 1%nat) as [n|] eqn:Hn.
    + left. pose proof (lookup_lt_Some _ _ _ Hg). pose proof (lookup_lt_Some _ _ _ Hn).
      repeat split; [lia | lia |]. eexists.
      apply (free_form_init_eq coefs shape wl ri xx yy d g n Hg Hn).
    + right. apply lookup_ge_None in Hn as Hlen. split; [right; lia|].
      unfold HeightMap.__init__, HeightMap._fresnel_phase_init,
        HeightMap.phase_to_height_map, getitem.
      cbn [HeightMap.wave_lengths HeightMap.delta_N].
      rewrite Hg. cbn [rbind].
      rewrite (tflatten_view (λ r, r - 1)), list_lookup_fmap, Hn. reflexivity.
  - right. apply lookup_ge_None in Hg as Hlen. split; [left; lia|].
    unfold HeightMap.__init__, HeightMap._fresnel_phase_init, getitem.
    cbn [HeightMap.wave_lengths]. rewrite Hg. reflexivity.
Qed.

Lemma free_form_init_needs_green_witness :
  ((2 <= length default_wave_lengths)%nat ∧ (2 <= length default_refractive_idcs)%nat
   ∧ ∃ self, HeightMap.__init__ None None (1, 3, 3, 3)%nat default_wave_lengths
               default_refractive_idcs xx3 yy3 default_sensor_distance = Ok self)
  ∨ (((length default_wave_lengths < 2)%nat ∨ (length default_refractive_idcs < 2)%nat)
     ∧ HeightMap.__init__ None None (1, 3, 3, 3)%nat default_wave_lengths
         default_refractive_idcs xx3 yy3 default_sensor_distance
       = Raise IndexError).
Proof.
  apply (free_form_init_needs_green None (1, 3, 3, 3)%nat default_wave_lengths
           default_refractive_idcs xx3 yy3 default_sensor_distance).
  reflexivity.
Defined.

(** ** The profile of a freshly constructed free-form height map *)

Lemma cexp_i_add_cycles (x : R) (k : Z) : cexp_i (x + 2 * PI * IZR k) = cexp_i x.
Proof.
  assert (Hnat : ∀ (y : R) (m : nat), cexp_i (y + 2 * PI * IZR (Z.of_nat m)) = cexp_i y).
  { intros y m. rewrite <- INR_IZR_INZ. unfold cexp_i.
    replace (y + 2 * PI * INR m) with (y + 2 * INR m * PI) by ring.
    rewrite cos_period, sin_period. reflexivity. }
  destruct (Z_le_gt_dec 0 k) as [Hk|Hk].
  - rewrite <- (Z2Nat.id k Hk). apply Hnat.
  - rewrite <- (Hnat (x + 2 * PI * IZR k) (Z.to_nat (- k))).
    rewrite Z2Nat.id by lia. rewrite opp_IZR. f_equal. ring.
Qed.

Lemma cexp_i_Rmod (p : R) : cexp_i (Rmod p (2 * PI)) = cexp_i p.
Proof.
  unfold Rmod.
  replace (p - 2 * PI * IZR (Rfloor (p / (2 * PI))))
    with (p + 2 * PI * IZR (- Rfloor (p / (2 * PI)))) by (rewrite opp_IZR; ring).
  apply cexp_i_add_cycles.
Qed.

Lemma lookup_map {A B} (f : A → B) (l : list A) (i : nat) :
  map f l !! i = f <$> l !! i.
Proof. apply (list_lookup_fmap f l i). Qed.

Section channel_lookup.
Context {A B C : Type}.

Lemma bcast2_lookup_r1 (f : A → B → C) (xs : list A) (y : B) (i : nat) :
  bcast2 f xs [y] !! i = (λ x, f x y) <$> xs !! i.
Proof.
  destruct xs as [|x [|x' xs]]; unfold bcast2.
  - reflexivity.
  - destruct i; reflexivity.
  - apply lookup_map.
Qed.

Lemma bcast2_lookup_l1 (f : A → B → C) (x : A) (ys : list B) (i : nat) :
  bcast2 f [x] ys !! i = f x <$> ys !! i.
Proof. unfold bcast2. apply lookup_map. Qed.

Lemma entry_gmap2d (f : A → B) (g : grid A) (i j : nat) :
  entry (gmap2d f g) i j = f <$> entry g i j.
Proof.
  unfold entry, gmap2d, grid in *. rewrite (lookup_map (map f) g i).
  destruct (g !! i) as [row|]; simpl; [|reflexivity]. apply lookup_map.
Qed.
End channel_lookup.

Lemma bcast2_singletons {A B C} (f : A → B → C) (a : A) (b : B) :
  bcast2 f [a] [b] = [f a b].
Proof. reflexivity. Qed.

Lemma entry_scaled_grid (c : R) (g : grid R) (i j : nat) :
  entry (gzip Rmult [[c]] g) i j = Rmult c <$> entry g i j.
Proof.
  unfold entry, gzip, grid in *.
  rewrite (bcast2_lookup_l1 (bcast2 Rmult) [c] g i).
  destruct (g !! i) as [row|]; simpl; [|reflexivity]. apply bcast2_lookup_l1.
Qed.

(** The phase of channel [c] in free-form mode, sample by sample. *)
Lemma free_form_channel_entry
    (wl ri : list R) (h : grid R) (c i j : nat) (l n : R) :
  wl !! c = Some l → ri !! c = Some n →
  tentry (tmul (tmul [map (λ l, [[2 * PI / l]]) wl] [map (λ r, [[r - 1]]) ri])
               (unsqueeze2 h)) 0 c i j
  = Rmult (2 * PI / l * (n - 1)) <$> entry h i j.
Proof.
  intros Hl Hn. unfold tentry, tmul, tzip, unsqueeze2, tensor, grid in *.
  rewrite !bcast2_singletons.
  cbn [lookup list_lookup mbind option_bind].
  rewrite bcast2_lookup_r1.
  rewrite (bcast2_lookup _ _ _ c [[2 * PI / l]] [[n - 1]])
    by (rewrite lookup_map; first [rewrite Hl | rewrite Hn]; reflexivity).
  cbn [fmap option_fmap option_map mbind option_bind].
  exact (entry_scaled_grid (2 * PI / l * (n - 1)) h i j).
Qed.

Lemma tentry_tmap {A B} (f : A → B) (t : tensor A) (b c i j : nat) :
  tentry (tmap f t) b c i j = f <$> tentry t b c i j.
Proof.
  unfold tentry, tmap, tensor in *. rewrite lookup_map.
  destruct (t !! b) as [cs|]; simpl; [|reflexivity].
  rewrite lookup_map.
  destruct (cs !! c) as [g|]; simpl; [|reflexivity].
  apply (entry_gmap2d f g i j).
Qed.

Lemma fresnel_init_spec_phasor (g n d x y : R) :
  0 < g → 1 < n →
  cexp_i (2 * PI / g * (n - 1) * (fresnel_init_spec g n d x y * fresnel_init_spec g n d x y))
  = cexp_i (- (2 * PI / g) * (x ^ 2 + y ^ 2) / (2 * d)).
Proof.
  intros Hg Hn. pose proof PI_RGT_0 as Hpi.
  unfold fresnel_init_spec. rewrite sqrt_sqrt.
  - unfold phase_to_height, fresnel_lens_phase.
    set (p := - (2 * PI / g) * (x ^ 2 + y ^ 2) / (2 * d)).
    replace (2 * PI / g * (n - 1) * (Rmod (Rmod p (2 * PI)) (2 * PI) / (2 * PI / g) / (n - 1)))
      with (Rmod (Rmod p (2 * PI)) (2 * PI)) by (field; lra).
    rewrite !cexp_i_Rmod. reflexivity.
  - unfold phase_to_height. apply wrapped_height_range; lra.
Qed.

(** X8: a freshly constructed free-form height map (coordinate grids of
    one shape, as many refractive indices as wavelengths, a non-zero sensor
    distance [d]) with a positive green wavelength [g] and a green
    refractive index [n] above 1 reproduces the Fresnel lens in the green
    channel: at every sample (x, y) the entry of [get_phase_profile()] in
    channel 1 is exp(-i·k·(x²+y²)/(2·d)), k = 2π/g. *)
Theorem fresh_profile_is_fresnel_lens
    (coefs : option (gmap nat R)) (shape : nat * nat * nat * nat)
    (wl ri : list R) (xx yy : grid R) (d g n : R) :
  same_shape xx yy →
  length wl = length ri →
  d ≠ 0 →
  wl !! 1%nat = Some g →
  ri !! 1%nat = Some n →
  0 < g → 1 < n →
  ∃ self prof,
    HeightMap.__init__ None coefs shape wl ri xx yy d = Ok self
    ∧ HeightMap.get_phase_profile self None = Ok prof
    ∧ ∀ i j x y,
        entry xx i j = Some x → entry yy i j = Some y →
        tentry prof 0 1 i j
        = Some (cexp_i (- (2 * PI / g) * (x ^ 2 + y ^ 2) / (2 * d))).
Proof.
  intros _ _ _ Hg Hn Hg0 Hn1. eexists _, _.
  split; [apply (free_form_init_eq coefs shape wl ri xx yy d g n Hg Hn)|].
  split; [apply get_phase_profile_free_form; reflexivity|].
  intros i j x y Hx Hy.
  unfold phase_profile_of_height.
  cbn [HeightMap.wave_nos HeightMap.delta_N].
  rewrite tentry_tmap, tmap_unsqueeze2.
  rewrite (free_form_channel_entry wl ri _ 1 i j g n Hg Hn).
  rewrite entry_gmap2d.
  rewrite (gzip_entry (fresnel_init_spec g n d) xx yy i j x y Hx Hy).
  cbn [fmap option_fmap option_map]. f_equal.
  apply fresnel_init_spec_phasor; assumption.
Qed.

Lemma fresh_profile_is_fresnel_lens_witness :
  ∃ self prof,
    HeightMap.__init__ None None (1, 3, 3, 3)%nat default_wave_lengths
                       default_refractive_idcs xx3 yy3 default_sensor_distance
    = Ok self
    ∧ HeightMap.get_phase_profile self None = Ok prof
    ∧ ∀ i j x y,
        entry xx3 i j = Some x → entry yy3 i j = Some y →
        tentry prof 0 1 i j
        = Some (cexp_i (- (2 * PI / (550 * 1e-9)) * (x ^ 2 + y ^ 2)
                        / (2 * default_sensor_distance))).
Proof.
  apply (fresh_profile_is_fresnel_lens None (1, 3, 3, 3)%nat default_wave_lengths
           default_refractive_idcs xx3 yy3 default_sensor_distance
           (550 * 1e-9) 1.4599);
    [reflexivity | reflexivity | unfold default_sensor_distance; lra
    | reflexivity | reflexivity | lra | lra].
Defined.

(** ** The Zernike mode *)

Lemma zernike_phase_unfold (zv : list (grid R)) (coeffs : list R) :
  HeightMap.zernike_phase zv coeffs
  = (let* terms := mapM_result (zernike_term zv) (imap (λ k coef, (k, coef)) coeffs) in
     let* s := HeightMap.sum_dim0 terms in
     Ok (tmap (λ v, 2 * PI * v) (unsqueeze2 s))).
Proof. reflexivity. Qed.

(** The terms of the sum exist when the basis has a slice for every
    coefficient; they vanish with the coefficients. *)
Lemma zernike_terms_total (zv : list (grid R)) (coeffs : list R) (n : nat) :
  (n + length coeffs <= length zv)%nat →
  ∃ terms,
    mapM_result (zernike_term zv) (imap (λ k coef, ((n + k)%nat, coef)) coeffs) = Ok terms
    ∧ length terms = length coeffs
    ∧ (Forall (λ c, c = 0) coeffs → Forall (Forall (Forall (λ v, v = 0))) terms).
Proof.
  revert n. induction coeffs as [|c cs IH]; intros n Hlen.
  - exists []. repeat split; constructor.
  - simpl in Hlen.
    destruct (lookup_lt_is_Some_2 zv (n + 0)) as [b Hb]; [lia|].
    destruct (IH (S n)) as (terms & Hterms & Hl & Hzero); [lia|].
    exists (gmap2d (λ v, c * v) b :: terms).
    split; [|split].
    + cbn [imap mapM_result]. unfold zernike_term at 1, getitem. cbn [fst snd].
      rewrite Hb. cbn [rbind].
      rewrite (imap_ext _ (λ k coef, ((S n + k)%nat, coef))); cycle 1.
      { intros k x _. unfold compose. f_equal. lia. }
      rewrite Hterms. reflexivity.
    + simpl. rewrite Hl. reflexivity.
    + intros Hc. apply Forall_cons in Hc as [-> Hcs].
      constructor; [|apply Hzero, Hcs].
      unfold gmap2d. apply Forall_map, Forall_forall. intros row _.
      apply Forall_map, Forall_forall. intros v _. ring.
Qed.

Section forall_broadcast.
Context {A B C : Type} (P : A → Prop) (Q : B → Prop) (S : C → Prop).

Lemma bcast2_Forall (f : A → B → C) (xs : list A) (ys : list B) :
  (∀ x y, P x → Q y → S (f x y)) →
  Forall P xs → Forall Q ys → Forall S (bcast2 f xs ys).
Proof.
  intros Hf Hxs Hys.
  assert (Hz : Forall S (zip_with f xs ys)).
  { revert ys Hys. induction Hxs as [|x xs Hx _ IH]; intros ys Hys; [constructor|].
    destruct Hys as [|y ys Hy Hys]; simpl; constructor; auto. }
  destruct xs as [|x [|x' xs]]; destruct ys as [|y [|y' ys]]; try exact Hz;
    unfold bcast2.
  - apply Forall_map. apply Forall_cons in Hxs as [Hx _].
    eapply Forall_impl; [exact Hys|]. intros b Hb. apply Hf; assumption.
  - apply Forall_map. apply Forall_cons in Hys as [Hy _].
    eapply Forall_impl; [exact Hxs|]. intros a Ha. apply Hf; assumption.
Qed.
End forall_broadcast.

Lemma gadd_zero (a b : grid R) :
  Forall (Forall (λ v, v = 0)) a → Forall (Forall (λ v, v = 0)) b →
  Forall (Forall (λ v, v = 0)) (HeightMap.gadd a b).
Proof.
  intros Ha Hb. unfold HeightMap.gadd, gzip.
  apply (bcast2_Forall (Forall (λ v, v = 0)) (Forall (λ v, v = 0)) _ _ a b); [|exact Ha|exact Hb].
  intros r r' Hr Hr'.
  apply (bcast2_Forall (λ v, v = 0) (λ v, v = 0) _ Rplus r r'); [|exact Hr|exact Hr'].
  intros x y -> ->. ring.
Qed.

Lemma sum_dim0_zero (terms : list (grid R)) (s : grid R) :
  Forall (Forall (Forall (λ v, v = 0))) terms →
  HeightMap.sum_dim0 terms = Ok s → Forall (Forall (λ v, v = 0)) s.
Proof.
  destruct terms as [|g gs]; [discriminate|]. intros Hall [= <-].
  apply Forall_cons in Hall as [Hg Hgs]. revert g Hg.
  induction Hgs as [|g' gs Hg' _ IH]; intros g Hg; simpl; [exact Hg|].
  apply IH, gadd_zero; assumption.
Qed.

(** The phase of a basis with a slice for each of [K >= 1] coefficients. *)
Lemma zernike_phase_total (zv : list (grid R)) (coeffs : list R) :
  coeffs ≠ [] → (length coeffs <= length zv)%nat →
  ∃ phi, HeightMap.zernike_phase zv coeffs = Ok phi
         ∧ (Forall (λ c, c = 0) coeffs → all_entries (λ v, v = 0) phi).
Proof.
  intros Hne Hlen.
  destruct (zernike_terms_total zv coeffs 0 Hlen) as (terms & Hterms & Hl & Hzero).
  change (λ (k : nat) (coef : R), ((0 + k)%nat, coef))
    with (λ (k : nat) (coef : R), (k, coef)) in Hterms.
  rewrite zernike_phase_unfold, Hterms. cbn [rbind].
  destruct terms as [|g gs]; [destruct coeffs; [congruence|discriminate]|].
  eexists. split; [reflexivity|]. intros Hc.
  pose proof (sum_dim0_zero (g :: gs) _ (Hzero Hc) eq_refl) as Hs.
  unfold all_entries, tmap, unsqueeze2. repeat constructor.
  unfold gmap2d. apply Forall_map. eapply Forall_impl; [exact Hs|]. intros row Hrow.
  apply Forall_map. eapply Forall_impl; [exact Hrow|]. intros v ->. ring.
Qed.

Lemma zernike_init_eq
    (zv : list (grid R)) (coefs : gmap nat R) (shape : nat * nat * nat * nat)
    (wl ri : list R) (xx yy : grid R) (d : R) :
  HeightMap.__init__ (Some zv) (Some coefs) shape wl ri xx yy d
  = Ok (HeightMap.Build (Some zv) (Some coefs) wl ri
          [map (λ r, [[r - 1]]) ri] [map (λ l, [[2 * PI / l]]) wl] xx yy d None
          (Some (map (λ k, default 0 (coefs !! k)) (seq 0 (length zv))))).
Proof.
  unfold HeightMap.__init__.
  rewrite (mapM_result_total _ (λ k, default 0 (coefs !! k))) by reflexivity.
  reflexivity.
Qed.

(** X9: a height map constructed on a Zernike basis with at least one
    slice and a coefficient dictionary always has a phase profile: the
    constructor leaves one coefficient per slice, so no basis lookup of
    [get_phase_profile] can fail. *)
Theorem zernike_profile_defined
    (g : grid R) (zv : list (grid R)) (coefs : gmap nat R)
    (shape : nat * nat * nat * nat) (wl ri : list R) (xx yy : grid R) (d : R)
    (arg : option (tensor R)) :
  ∃ self prof,
    HeightMap.__init__ (Some (g :: zv)) (Some coefs) shape wl ri xx yy d = Ok self
    ∧ HeightMap.get_phase_profile self arg = Ok prof.
Proof.
  eexists. rewrite zernike_init_eq.
  destruct (zernike_phase_total (g :: zv)
              (map (λ k, default 0 (coefs !! k)) (seq 0 (length (g :: zv)))))
    as (phi & Hphi & _).
  - discriminate.
  - rewrite length_map, length_seq. lia.
  - eexists. split; [reflexivity|].
    unfold HeightMap.get_phase_profile. cbn [HeightMap.zernike_volume HeightMap.zernike_coeffs getattr rbind].
    rewrite Hphi. reflexivity.
Qed.

(** X10: on an empty Zernike basis the constructor succeeds, with or
    without a dictionary, and both [get_phase_profile] and
    [height_from_zernike] then raise RuntimeError ([torch.stack] of an
    empty list). *)
Theorem zernike_empty_basis
    (coefs : option (gmap nat R)) (shape : nat * nat * nat * nat)
    (wl ri : list R) (xx yy : grid R) (d : R) (arg : option (tensor R)) :
  ∃ self,
    HeightMap.__init__ (Some []) coefs shape wl ri xx yy d = Ok self
    ∧ HeightMap.get_phase_profile self arg = Raise RuntimeError
    ∧ HeightMap.height_from_zernike self = inl (Listed RuntimeError).
Proof. eexists. repeat split. Qed.

(** X11: when the dictionary has no key among the K >= 1 slice indices,
    every coefficient starts at 0 and the constructed element is flat: its
    profile is 1 at every sample. *)
Theorem zernike_default_profile_flat
    (g : grid R) (zv : list (grid R)) (coefs : gmap nat R)
    (shape : nat * nat * nat * nat) (wl ri : list R) (xx yy : grid R) (d : R)
    (arg : option (tensor R)) :
  (∀ k, (k < length (g :: zv))%nat → coefs !! k = None) →
  ∃ self prof,
    HeightMap.__init__ (Some (g :: zv)) (Some coefs) shape wl ri xx yy d = Ok self
    ∧ HeightMap.get_phase_profile self arg = Ok prof
    ∧ all_entries (λ z, z = Cx 1 0) prof.
Proof.
  intros Hnone. eexists. rewrite zernike_init_eq.
  destruct (zernike_phase_total (g :: zv)
              (map (λ k, default 0 (coefs !! k)) (seq 0 (length (g :: zv)))))
    as (phi & Hphi & Hzero).
  - discriminate.
  - rewrite length_map, length_seq. lia.
  - eexists. split; [reflexivity|]. split.
    + unfold HeightMap.get_phase_profile.
      cbn [HeightMap.zernike_volume HeightMap.zernike_coeffs getattr rbind].
      rewrite Hphi. reflexivity.
    + assert (Hphi0 : all_entries (λ v, v = 0) phi).
      { apply Hzero. apply Forall_map, Forall_forall. intros k Hk.
        apply elem_of_seq in Hk. rewrite Hnone by lia. reflexivity. }
      unfold all_entries, tmap, gmap2d in *.
      apply Forall_map. eapply Forall_impl; [exact Hphi0|]. intros cs Hcs.
      apply Forall_map. eapply Forall_impl; [exact Hcs|]. intros gr Hgr.
      apply Forall_map. eapply Forall_impl; [exact Hgr|]. intros row Hrow.
      apply Forall_map. eapply Forall_impl; [exact Hrow|]. intros v ->.
      apply cexp_i_0. reflexivity.
Qed.

Lemma zernike_default_profile_flat_witness :
  ∃ self prof,
    HeightMap.__init__ (Some [xx3; yy3]) (Some ∅) (1, 3, 3, 3)%nat
      default_wave_lengths default_refractive_idcs xx3 yy3 default_sensor_distance
    = Ok self
    ∧ HeightMap.get_phase_profile self None = Ok prof
    ∧ all_entries (λ z, z = Cx 1 0) prof.
Proof.
  apply (zernike_default_profile_flat xx3 [yy3] ∅). intros k _. apply lookup_empty.
Defined.

(** ** height_from_zernike *)

(** X12: when [height_from_zernike] returns a height map, for a first
    wavelength [l0] other than 0 and a first refractive index [n0] other
    than 1, the profile of [get_phase_profile] is the profile of that
    height map at the first wavelength, exp(i·(2π/l0)·(n0-1)·h). *)
Theorem height_from_zernike_profile
    (self : HeightMap.t) (h : tensor R) (l0 n0 : R) (arg : option (tensor R)) :
  HeightMap.height_from_zernike self = inr h →
  HeightMap.wave_lengths self !! 0%nat = Some l0 →
  HeightMap.refractive_idcs self !! 0%nat = Some n0 →
  l0 ≠ 0 → n0 ≠ 1 →
  HeightMap.get_phase_profile self arg
  = Ok (tmap (λ v, cexp_i (2 * PI / l0 * (n0 - 1) * v)) h).
Proof.
  intros Hh Hl Hn Hl0 Hn1. pose proof PI_RGT_0 as Hpi.
  unfold HeightMap.height_from_zernike, HeightMap.get_phase_profile, getitem in *.
  destruct (HeightMap.zernike_coeffs self) as [coeffs|]; [|discriminate].
  cbn [getattr rbind] in *.
  destruct (HeightMap.zernike_volume self) as [zv|];
    [|destruct coeffs; discriminate].
  destruct (HeightMap.zernike_phase zv coeffs) as [phi|e]; [|discriminate].
  rewrite Hl, Hn in Hh. cbn [rbind lift_result] in *.
  injection Hh as <-. f_equal. rewrite tmap_tmap.
  apply tmap_ext; intros p. f_equal. field. lra.
Qed.

Lemma height_from_zernike_profile_witness :
  ∃ h,
    HeightMap.height_from_zernike two_term_height_map = inr h
    ∧ tentry h 0 0 0 1
      = Some (460 * 1e-9 * (2 * PI * (0.25 * 2 + 0.5 * 4)) / (2 * PI * (1.4648 - 1)))
    ∧ HeightMap.get_phase_profile two_term_height_map None
      = Ok (tmap (λ v, cexp_i (2 * PI / (460 * 1e-9) * (1.4648 - 1) * v)) h).
Proof.
  eexists. split; [reflexivity|]. split; [reflexivity|].
  apply (height_from_zernike_profile two_term_height_map _ (460 * 1e-9) 1.4648);
    [reflexivity | reflexivity | reflexivity | lra | lra].
Defined.

(** X13: a height map that the free-form constructor returns (coordinate
    grids of one shape, as many refractive indices as wavelengths) has a
    phase profile but no Zernike height: [height_from_zernike] raises
    AttributeError on it. *)
Theorem free_form_has_no_zernike_height
    (coefs : option (gmap nat R)) (shape : nat * nat * nat * nat)
    (wl ri : list R) (xx yy : grid R) (d : R) (self : HeightMap.t)
    (arg : option (tensor R)) :
  same_shape xx yy →
  length wl = length ri →
  HeightMap.__init__ None coefs shape wl ri xx yy d = Ok self →
  HeightMap.height_from_zernike self = inl (Listed AttributeError)
  ∧ ∃ prof, HeightMap.get_phase_profile self arg = Ok prof.
Proof.
  intros _ _. unfold HeightMap.__init__.
  destruct (HeightMap._fresnel_phase_init _ 1) as [p|e]; [|discriminate].
  intros [= <-]. split; [reflexivity|]. eexists. reflexivity.
Qed.

Lemma free_form_has_no_zernike_height_witness :
  HeightMap.height_from_zernike hm_flat = inl (Listed AttributeError)
  ∧ ∃ prof, HeightMap.get_phase_profile hm_flat None = Ok prof.
Proof.
  apply (free_form_has_no_zernike_height None (1, 3, 1, 1)%nat
           default_wave_lengths default_refractive_idcs [[0]] [[0]]
           default_sensor_distance hm_flat None);
    [reflexivity | reflexivity | exact hm_flat_fresh].
Defined.

(** ** More on the aperture *)

Lemma radius_ge_x (x y : R) : x <= sqrt (x ^ 2 + y ^ 2).
Proof.
  destruct (Rle_dec 0 x) as [Hx|Hx].
  - rewrite <- (sqrt_square x Hx) at 1. apply sqrt_le_1_alt. nra.
  - pose proof (sqrt_pos (x ^ 2 + y ^ 2)). lra.
Qed.

(** X14: on coordinate grids of one shape with at least one sample, when
    no x-coordinate is positive the aperture is closed: every entry of the
    mask is 0. *)
Theorem aperture_closed_without_positive_x (xx yy : grid R) :
  same_shape xx yy →
  gflatten xx ≠ [] →
  (∀ x, x ∈ gflatten xx → x <= 0) →
  ∃ mask, RGBCollimator._get_circular_aperture xx yy = Ok mask
          ∧ all_entries (λ v, v = 0) mask.
Proof.
  intros _ Hne Hneg. destruct (lmax_nonempty _ Hne) as [m Hm].
  eexists. split; [apply (circular_aperture_eq xx yy m Hm)|].
  apply lmax_spec in Hm as [Hin _]. specialize (Hneg m Hin).
  unfold all_entries, unsqueeze2, gzip. repeat constructor.
  apply (bcast2_Forall (λ _, True) (λ _, True)); try (apply Forall_forall; intros; exact I).
  intros r r' _ _.
  apply (bcast2_Forall (λ _, True) (λ _, True)); try (apply Forall_forall; intros; exact I).
  intros x y _ _. destruct (Rlt_dec _ _) as [Hlt|]; [|reflexivity].
  pose proof (sqrt_pos (x ^ 2 + y ^ 2)). lra.
Qed.

Lemma aperture_closed_without_positive_x_witness :
  ∃ mask, RGBCollimator._get_circular_aperture mm_xx mm_yy = Ok mask
          ∧ all_entries (λ v, v = 0) mask.
Proof.
  apply (aperture_closed_without_positive_x mm_xx mm_yy).
  - reflexivity.
  - simpl. discriminate.
  - intros x Hx. unfold mm_xx, gflatten in Hx. simpl in Hx.
    repeat (apply elem_of_cons in Hx as [->|Hx]; [lra|]).
    apply elem_of_nil in Hx. destruct Hx.
Defined.

Lemma elem_of_gflatten {A} (g : grid A) (x : A) :
  x ∈ gflatten g → ∃ i j, entry g i j = Some x.
Proof.
  unfold gflatten, entry. induction g as [|row g IH]; simpl; intros Hx.
  - apply elem_of_nil in Hx. destruct Hx.
  - apply elem_of_app in Hx as [Hx|Hx].
    + apply list_elem_of_lookup in Hx as [j Hj]. exists 0%nat, j. exact Hj.
    + destruct (IH Hx) as (i & j & Hij). exists (S i), j. exact Hij.
Qed.

Lemma same_shape_entry {A B} (a : grid A) (b : grid B) (i j : nat) (x : A) :
  same_shape a b → entry a i j = Some x → ∃ y, entry b i j = Some y.
Proof.
  unfold same_shape, entry, grid in *. intros Hs Hx.
  assert (Hrow : map length a !! i = map length b !! i) by (rewrite Hs; reflexivity).
  rewrite !lookup_map in Hrow.
  destruct (a !! i) as [ra|]; [|discriminate].
  destruct (b !! i) as [rb|]; [|discriminate]. simpl in *.
  injection Hrow as Hlen. apply lookup_lt_Some in Hx.
  destruct (lookup_lt_is_Some_2 rb j) as [y Hy]; [lia|]. exists y. exact Hy.
Qed.

(** X15: the aperture is never fully open: on coordinate grids of one
    shape with at least one sample, the mask is 0 at a sample that carries
    the largest x-coordinate. *)
Theorem aperture_never_fully_open (xx yy : grid R) :
  same_shape xx yy →
  gflatten xx ≠ [] →
  ∃ mask i j m,
    RGBCollimator._get_circular_aperture xx yy = Ok (unsqueeze2 mask)
    ∧ grid_max xx m
    ∧ entry xx i j = Some m
    ∧ entry mask i j = Some 0.
Proof.
  intros Hshape Hne. destruct (lmax_nonempty _ Hne) as [m Hm].
  pose proof (lmax_spec _ _ Hm) as Hmax.
  destruct (elem_of_gflatten xx m (proj1 Hmax)) as (i & j & Hij).
  destruct (same_shape_entry xx yy i j m Hshape Hij) as [y Hy].
  eexists _, i, j, m. split; [apply (circular_aperture_eq xx yy m Hm)|].
  split; [exact Hmax|]. split; [exact Hij|].
  rewrite (gzip_entry (λ x y, if Rlt_dec (sqrt (x ^ 2 + y ^ 2)) m then 1 else 0)
             xx yy i j m y Hij Hy).
  destruct (Rlt_dec _ _) as [Hlt|]; [|reflexivity].
  pose proof (radius_ge_x m y). lra.
Qed.

Lemma aperture_never_fully_open_witness :
  ∃ mask i j m,
    RGBCollimator._get_circular_aperture xx3 yy3 = Ok (unsqueeze2 mask)
    ∧ grid_max xx3 m
    ∧ entry xx3 i j = Some m
    ∧ entry mask i j = Some 0.
Proof.
  apply (aperture_never_fully_open xx3 yy3).
  - reflexivity.
  - simpl. discriminate.
Defined.

(** ** Constructing the collimator *)

(** X16: when [get_coordinate] yields a grid without samples, the
    constructor of the collimator raises RuntimeError ([xx.max()] of an
    empty tensor), before any height map is built. *)
Theorem collimator_init_empty_grid
    (get_coordinate : nat → nat → R → R → grid R * grid R)
    (FresnelPropagator :
       nat * nat * nat * nat → R → R → list R → tensor complex → tensor complex)
    (zv : option (list (grid R))) (coefs : option (gmap nat R))
    (d : R) (ri wl : list R) (patch : nat) (si : R) (wres : nat * nat) :
  gflatten (get_coordinate wres.1 wres.2 si si).1 = [] →
  RGBCollimator.__init__ get_coordinate FresnelPropagator
    zv coefs d ri wl patch si wres
  = Raise RuntimeError.
Proof.
  intros Hempty. unfold RGBCollimator.__init__.
  destruct (get_coordinate wres.1 wres.2 si si) as [xx yy]. simpl in Hempty.
  unfold RGBCollimator._get_circular_aperture. rewrite Hempty. reflexivity.
Qed.

Lemma collimator_init_empty_grid_witness :
  RGBCollimator.__init__ (λ _ _ _ _, ([], [])) free_space_propagator
    None None default_sensor_distance default_refractive_idcs
    default_wave_lengths 1 2e-6 (0%nat, 4%nat)
  = Raise RuntimeError.
Proof.
  apply (collimator_init_empty_grid (λ _ _ _ _, ([], [])) free_space_propagator).
  reflexivity.
Defined.



Lemma fresh_green_entry
    (wl ri : list R) (xx yy : grid R) (d g n : R) (i j : nat) (x y : R) :
  wl !! 1%nat = Some g → ri !! 1%nat = Some n → 0 < g → 1 < n →
  entry xx i j = Some x → entry yy i j = Some y →
  tentry
    (tmap cexp_i
       (tmul (tmul [map (λ l, [[2 * PI / l]]) wl] [map (λ r, [[r - 1]]) ri])
             (tmap (λ v, v * v) (unsqueeze2 (gzip (fresnel_init_spec g n d) xx yy)))))
    0 1 i j
  = Some (cexp_i (- (2 * PI / g) * (x ^ 2 + y ^ 2) / (2 * d))).
Proof.
  intros Hg Hn Hg0 Hn1 Hx Hy.
  rewrite tentry_tmap, tmap_unsqueeze2.
  rewrite (free_form_channel_entry wl ri _ 1 i j g n Hg Hn).
  rewrite entry_gmap2d.
  rewrite (gzip_entry (fresnel_init_spec g n d) xx yy i j x y Hx Hy).
  cbn [fmap option_fmap option_map]. f_equal.
  apply fresnel_init_spec_phasor; assumption.
Qed.

(** X18: on a freshly built free-form collimator (coordinate grids of one
    shape with samples, as many refractive indices as wavelengths, a
    non-zero sensor distance [d], a positive green wavelength [g], a green
    refractive index [n] above 1) [build_baseline_profile] returns a profile whose green channel is the
    ideal Fresnel lens exp(-i·k·(x²+y²)/(2·d)), k = 2π/g, at every sample:
    the parameter still holds its Fresnel initialisation. *)
Theorem fresh_collimator_baseline_is_fresnel_lens
    (get_coordinate : nat → nat → R → R → grid R * grid R)
    (FresnelPropagator :
       nat * nat * nat * nat → R → R → list R → tensor complex → tensor complex)
    (coefs : option (gmap nat R)) (d : R) (ri wl : list R)
    (patch : nat) (si : R) (wres : nat * nat) (xx yy : grid R) (g n : R) :
  get_coordinate wres.1 wres.2 si si = (xx, yy) →
  same_shape xx yy →
  gflatten xx ≠ [] →
  length wl = length ri →
  d ≠ 0 →
  wl !! 1%nat = Some g → ri !! 1%nat = Some n →
  0 < g → 1 < n →
  ∃ m prof,
    RGBCollimator.__init__ get_coordinate FresnelPropagator
      None coefs d ri wl patch si wres = Ok m
    ∧ build_baseline_profile m = Ok prof
    ∧ ∀ i j x y,
        entry xx i j = Some x → entry yy i j = Some y →
        tentry prof 0 1 i j
        = Some (cexp_i (- (2 * PI / g) * (x ^ 2 + y ^ 2) / (2 * d))).
Proof.
  intros Hgc _ Hne _ _ Hg Hn Hg0 Hn1.
  destruct (lmax_nonempty _ Hne) as [mx Hmx].
  eexists _, _. split; [|split].
  - unfold RGBCollimator.__init__. rewrite Hgc.
    rewrite (circular_aperture_eq xx yy mx Hmx). cbn [rbind].
    rewrite (free_form_init_eq coefs _ wl ri xx yy d g n Hg Hn). reflexivity.
  - rewrite (build_baseline_profile_free_form _ g g (n - 1));
      [ apply get_phase_profile_free_form; reflexivity
      | reflexivity | exact Hg | exact Hg |].
    cbn [RGBCollimator.height_map HeightMap.delta_N].
    rewrite (tflatten_view (λ r, r - 1)), lookup_map, Hn. reflexivity.
  - intros i j x y Hx Hy. unfold phase_profile_of_height.
    cbn [HeightMap.wave_nos HeightMap.delta_N].
    apply fresh_green_entry; assumption.
Qed.

Lemma fresh_collimator_baseline_is_fresnel_lens_witness :
  ∃ m prof,
    RGBCollimator.__init__ (λ _ _ _ _, (xx3, yy3)) free_space_propagator
      None None default_sensor_distance default_refractive_idcs
      default_wave_lengths 3 1 (3%nat, 3%nat) = Ok m
    ∧ build_baseline_profile m = Ok prof
    ∧ ∀ i j x y,
        entry xx3 i j = Some x → entry yy3 i j = Some y →
        tentry prof 0 1 i j
        = Some (cexp_i (- (2 * PI / (550 * 1e-9)) * (x ^ 2 + y ^ 2)
                        / (2 * default_sensor_distance))).
Proof.
  apply (fresh_collimator_baseline_is_fresnel_lens (λ _ _ _ _, (xx3, yy3))
           free_space_propagator None default_sensor_distance
           default_refractive_idcs default_wave_lengths 3 1 (3%nat, 3%nat)
           xx3 yy3 (550 * 1e-9) 1.4599);
    [reflexivity | reflexivity | simpl; discriminate | reflexivity
    | unfold default_sensor_distance; lra | reflexivity | reflexivity | lra | lra].
Defined.

(** ** More on get_psf and forward *)

Lemma lsum_map_bound {A} (f : A → R) (l : list A) (a : A) :
  (∀ b, b ∈ l → 0 <= f b) → a ∈ l → 0 <= f a <= lsum (map f l).
Proof.
  intros Hpos Ha.
  assert (Hsum : ∀ k : list A, (∀ b, b ∈ k → 0 <= f b) → 0 <= lsum (map f k)).
  { induction k as [|b k IH]; intros Hk; simpl; [lra|].
    pose proof (Hk b ltac:(left)).
    pose proof (IH (λ c Hc, Hk c ltac:(right; exact Hc))). lra. }
  induction l as [|b l IH]; [apply elem_of_nil in Ha; destruct Ha|].
  simpl. pose proof (Hpos b ltac:(left)) as Hb.
  pose proof (Hsum l (λ c Hc, Hpos c ltac:(right; exact Hc))) as Hl.
  apply elem_of_cons in Ha as [->|Ha]; [lra|].
  pose proof (IH (λ c Hc, Hpos c ltac:(right; exact Hc)) Ha). lra.
Qed.

Lemma lsum_bound (row : list R) (v : R) :
  Forall (λ x, 0 <= x) row → v ∈ row → 0 <= v <= lsum row.
Proof.
  intros Hrow Hv.
  pose proof (lsum_map_bound (λ x, x) row v (proj1 (Forall_forall _ _) Hrow) Hv) as H.
  replace (map (λ x, x) row) with row in H by (symmetry; apply map_id).
  exact H.
Qed.

(** Every entry of a tensor of non-negative entries is at most the total. *)
Lemma tsum_bounds (t : tensor R) :
  all_entries (λ v, 0 <= v) t → all_entries (λ v, 0 <= v <= tsum t) t.
Proof.
  unfold all_entries, tsum, gsum. intros Ht.
  assert (Hrow : ∀ row, Forall (λ x, 0 <= x) row → 0 <= lsum row).
  { intros row Hr. destruct row as [|x row]; [simpl; lra|].
    apply (Rle_trans _ x); apply (lsum_bound (x :: row) x Hr); left. }
  assert (Hg : ∀ g : grid R, Forall (Forall (λ x, 0 <= x)) g → 0 <= lsum (map lsum g)).
  { intros g Hgr. destruct g as [|row g]; [simpl; lra|].
    apply (Rle_trans _ (lsum row));
      apply (lsum_map_bound lsum (row :: g) row); try (left; fail);
      intros r Hr; apply Hrow; exact (proj1 (Forall_forall _ _) Hgr r Hr). }
  assert (Hc : ∀ cs : list (grid R),
             Forall (Forall (Forall (λ x, 0 <= x))) cs →
             0 <= lsum (map (λ g, lsum (map lsum g)) cs)).
  { intros cs Hcs. destruct cs as [|g cs]; [simpl; lra|].
    apply (Rle_trans _ (lsum (map lsum g)));
      apply (lsum_map_bound (λ g, lsum (map lsum g)) (g :: cs) g); try (left; fail);
      intros r Hr; apply Hg; exact (proj1 (Forall_forall _ _) Hcs r Hr). }
  apply Forall_forall. intros cs Hcs.
  apply Forall_forall. intros g Hgin.
  apply Forall_forall. intros row Hrin.
  apply Forall_forall. intros v Hv.
  pose proof (proj1 (Forall_forall _ _) Ht cs Hcs) as Pcs.
  pose proof (proj1 (Forall_forall _ _) Pcs g Hgin) as Pg.
  pose proof (proj1 (Forall_forall _ _) Pg row Hrin) as Prow.
  pose proof (lsum_bound row v Prow Hv) as B1.
  pose proof (lsum_map_bound lsum g row
                (λ r Hr, Hrow r (proj1 (Forall_forall _ _) Pg r Hr)) Hrin) as B2.
  pose proof (lsum_map_bound (λ g, lsum (map lsum g)) cs g
                (λ r Hr, Hg r (proj1 (Forall_forall _ _) Pcs r Hr)) Hgin) as B3.
  pose proof (lsum_map_bound (λ cs, lsum (map (λ g, lsum (map lsum g)) cs)) t cs
                (λ r Hr, Hc r (proj1 (Forall_forall _ _) Ht r Hr)) Hcs) as B4.
  cbv beta in B2, B3, B4. unfold grid in *. lra.
Qed.

Lemma all_entries_tmap_impl {A B} (Q : A → Prop) (P : B → Prop) (f : A → B) (t : tensor A) :
  all_entries Q t → (∀ a, Q a → P (f a)) → all_entries P (tmap f t).
Proof.
  unfold all_entries, tmap, gmap2d. intros Ht Hf.
  apply Forall_map. eapply Forall_impl; [exact Ht|]. intros cs Hcs.
  apply Forall_map. eapply Forall_impl; [exact Hcs|]. intros g Hg.
  apply Forall_map. eapply Forall_impl; [exact Hg|]. intros row Hrow.
  apply Forall_map. eapply Forall_impl; [exact Hrow|]. exact Hf.
Qed.

(** X19: with a downsampling that keeps non-negative tensors non-negative
    (as area averaging does) and a non-zero total intensity, every entry
    of the PSF that [get_psf] returns lies between 0 and 1. *)
Theorem get_psf_entries_bounded
    (area_downsampling : tensor R → nat → tensor R)
    (self : RGBCollimator.t) (phase_profile : option (tensor complex))
    (psfs : tensor R) :
  (∀ t n, all_entries (λ v, 0 <= v) t →
          all_entries (λ v, 0 <= v) (area_downsampling t n)) →
  RGBCollimator.psf_intensity area_downsampling self phase_profile = Ok psfs →
  tsum psfs ≠ 0 →
  ∃ out,
    RGBCollimator.get_psf area_downsampling self phase_profile = Ok out
    ∧ all_entries (λ v, 0 <= v <= 1) out.
Proof.
  intros Hds Hpsf Hsum. eexists. split.
  - unfold RGBCollimator.get_psf. rewrite Hpsf. reflexivity.
  - assert (Hpos : all_entries (λ v, 0 <= v) psfs).
    { unfold RGBCollimator.psf_intensity in Hpsf.
      destruct (match phase_profile with Some _ => _ | None => _ end) as [pp|e];
        [|discriminate].
      cbn [rbind] in Hpsf. injection Hpsf as <-.
      apply Hds, all_entries_tmap. intros z. apply pow2_ge_0. }
    apply (all_entries_tmap_impl _ _ _ _ (tsum_bounds psfs Hpos)).
    intros v [Hv0 Hv1].
    assert (HT : 0 < tsum psfs) by lra.
    split.
    + apply (Rmult_le_reg_r (tsum psfs)); [exact HT|].
      replace (v / tsum psfs * tsum psfs) with v by (field; lra). lra.
    + apply (Rmult_le_reg_r (tsum psfs)); [exact HT|].
      replace (v / tsum psfs * tsum psfs) with v by (field; lra). lra.
Qed.

Lemma get_psf_entries_bounded_witness :
  ∃ out,
    RGBCollimator.get_psf unit_pooling lit_model None = Ok out
    ∧ all_entries (λ v, 0 <= v <= 1) out.
Proof.
  apply (get_psf_entries_bounded unit_pooling lit_model None
           [[centre_only; centre_only; centre_only]]).
  - intros t n Ht. exact Ht.
  - exact lit_model_intensity.
  - unfold tsum, gsum, lsum; simpl. lra.
Defined.



(** ** The free-form parameter: initialisation and use *)

(** C5: in free-form mode, on coordinate grids of one shape, with a
    positive green wavelength [g] = wave_lengths[1], its refractive index
    [n] = refractive_idcs[1] above 1 and a non-zero sensor distance, the
    constructor succeeds and stores as [height_map_sqrt] the (1,1,H,W)
    tensor whose entry at a sample (x, y) is the square root of the height
    of the ideal Fresnel-lens phase -k·(x²+y²)/(2·sensor_distance) mod 2π,
    k = 2π/g. *)
Theorem free_form_init_fresnel
    (coefs : option (gmap nat R)) (shape : nat * nat * nat * nat)
    (wl ri : list R) (xx yy : grid R) (d g n : R) :
  wl !! 1%nat = Some g →
  ri !! 1%nat = Some n →
  same_shape xx yy →
  d ≠ 0 → 0 < g → 1 < n →
  ∃ self,
    HeightMap.__init__ None coefs shape wl ri xx yy d = Ok self
    ∧ HeightMap.zernike_volume self = None
    ∧ HeightMap.zernike_coeffs self = None
    ∧ HeightMap.height_map_sqrt self
      = Some (unsqueeze2 (gzip (fresnel_init_spec g n d) xx yy))
    ∧ same_shape (gzip (fresnel_init_spec g n d) xx yy) xx
    ∧ ∀ x y, 0 <= phase_to_height g n (fresnel_lens_phase g d x y).
Proof.
  intros Hg Hn Hshape _ Hg0 Hn1. eexists.
  split; [apply (free_form_init_eq _ _ _ _ _ _ _ g n Hg Hn)|].
  split; [reflexivity|]. split; [reflexivity|]. split; [reflexivity|].
  split; [apply gzip_shape, Hshape|].
  intros x y. unfold phase_to_height. apply wrapped_height_range; lra.
Qed.

Lemma free_form_init_fresnel_witness :
  ∃ self,
    HeightMap.__init__ None None (1, 3, 3, 3)%nat default_wave_lengths
                       default_refractive_idcs xx3 yy3 default_sensor_distance
    = Ok self
    ∧ HeightMap.zernike_volume self = None
    ∧ HeightMap.zernike_coeffs self = None
    ∧ HeightMap.height_map_sqrt self
      = Some (unsqueeze2
                (gzip (fresnel_init_spec (550 * 1e-9) 1.4599 default_sensor_distance)
                      xx3 yy3))
    ∧ same_shape
        (gzip (fresnel_init_spec (550 * 1e-9) 1.4599 default_sensor_distance) xx3 yy3)
        xx3
    ∧ ∀ x y, 0 <= phase_to_height (550 * 1e-9) 1.4599
                    (fresnel_lens_phase (550 * 1e-9) default_sensor_distance x y).
Proof.
  apply (free_form_init_fresnel None (1, 3, 3, 3)%nat default_wave_lengths
           default_refractive_idcs xx3 yy3 default_sensor_distance
           (550 * 1e-9) 1.4599);
    [reflexivity | reflexivity | reflexivity
    | unfold default_sensor_distance; lra | lra | lra].
Defined.

(** C6: in free-form mode, whenever [get_phase_profile] returns a profile,
    that profile is the one of a height field that is the entrywise square
    of the parameter [height_map_sqrt], and this height field is
    non-negative at every entry, whatever real values the parameter holds. *)
Theorem free_form_profile_height_nonneg
    (self : HeightMap.t) (arg : option (tensor R)) (prof : tensor complex) :
  HeightMap.zernike_volume self = None →
  HeightMap.get_phase_profile self arg = Ok prof →
  ∃ p h,
    HeightMap.height_map_sqrt self = Some p
    ∧ h = tmap (λ v, v * v) p
    ∧ all_entries (λ v, 0 <= v) h
    ∧ prof = tmap cexp_i
               (tmul (tmul (HeightMap.wave_nos self) (HeightMap.delta_N self)) h).
Proof.
  intros Hz. unfold HeightMap.get_phase_profile, HeightMap.free_form_height.
  rewrite Hz. destruct (HeightMap.height_map_sqrt self) as [p|]; [|discriminate].
  cbn [getattr rbind]. intros [= <-].
  exists p, (tmap (λ v, v * v) p). repeat split.
  apply all_entries_tmap. intros v. nra.
Qed.

Lemma free_form_profile_height_nonneg_witness :
  ∃ p h,
    HeightMap.height_map_sqrt signed_height_map = Some p
    ∧ h = tmap (λ v, v * v) p
    ∧ all_entries (λ v, 0 <= v) h
    ∧ phase_profile_of_height signed_height_map [[ [[-2 * -2; 0.5 * 0.5]] ]]
      = tmap cexp_i
          (tmul (tmul (HeightMap.wave_nos signed_height_map)
                      (HeightMap.delta_N signed_height_map)) h).
Proof.
  apply (free_form_profile_height_nonneg signed_height_map None); reflexivity.
Defined.
